(** * Reddit unanswered-question finder: the classification heuristics

    A shallow embedding of the heuristics of [reddit.py]
    ([is_promotional_content], [is_genuine_question],
    [calculate_enhanced_relevance_score], [is_unanswered_enhanced],
    [is_meaningful_comment] and the per-post filter cascade of
    [search_unanswered_questions_enhanced]) together with the properties
    stated about them.

    Text is a Python [str] whose code points are below 256: one [ascii]
    per code point.  On that range [str.lower] maps A-Z and the Latin-1
    capitals (0xC0-0xDE except 0xD7) 32 places up and leaves the rest
    alone, and [str.isspace] holds of 9-13, 28-32, 133 and 160.
    Lowercasing keeps the length of such text; above 255 it need not
    (U+0130 becomes two code points).
    Scores are IEEE binary64 numbers, as Python floats are. *)

From Stdlib Require Import Bool List ZArith NArith Lia Ascii String.
From Stdlib Require Import Floats.
Import ListNotations.

Set Warnings "-inexact-float".

Local Open Scope string_scope.
Local Open Scope Z_scope.

(** ** Python string primitives *)

Module PyStr.

Definition is_space (c : ascii) : bool :=
  let n := N_of_ascii c in
  (((9 <=? n) && (n <=? 13)) || ((28 <=? n) && (n <=? 32))
   || (n =? 133) || (n =? 160))%N.

Definition is_upper (c : ascii) : bool :=
  let n := N_of_ascii c in
  (((65 <=? n) && (n <=? 90))
   || ((192 <=? n) && (n <=? 222) && negb (n =? 215)))%N.

Definition lower_char (c : ascii) : ascii :=
  if is_upper c then ascii_of_N (N_of_ascii c + 32) else c.

(** [s.lower()] *)
Fixpoint lower (s : string) : string :=
  match s with
  | EmptyString => EmptyString
  | String c t => String (lower_char c) (lower t)
  end.

(** [s.startswith(p)] *)
Fixpoint startswith (p s : string) : bool :=
  match p, s with
  | EmptyString, _ => true
  | String a p', String b s' => Ascii.eqb a b && startswith p' s'
  | String _ _, EmptyString => false
  end.

(** [p in s]: [p] occurs in [s] at some offset; the empty pattern occurs
    in every string. *)
Fixpoint str_in (p s : string) : bool :=
  startswith p s
  || match s with
     | EmptyString => false
     | String _ s' => str_in p s'
     end.

(** [s.endswith(p)] *)
Fixpoint endswith (p s : string) : bool :=
  String.eqb p s
  || match s with
     | EmptyString => false
     | String _ s' => endswith p s'
     end.

(** [s.lstrip()] *)
Fixpoint lstrip (s : string) : string :=
  match s with
  | EmptyString => EmptyString
  | String c t => if is_space c then lstrip t else s
  end.

(** [s.rstrip()] *)
Fixpoint rstrip (s : string) : string :=
  match s with
  | EmptyString => EmptyString
  | String c t =>
      match rstrip t with
      | EmptyString => if is_space c then EmptyString else String c EmptyString
      | r => String c r
      end
  end.

(** [s.strip()] *)
Definition strip (s : string) : string := rstrip (lstrip s).

(** [s.split()]: the maximal runs of non-space characters, in order.
    [cur] is the run being read, most recent character first. *)
Fixpoint rev_string (acc s : string) : string :=
  match s with
  | EmptyString => acc
  | String c t => rev_string (String c acc) t
  end.

Definition flush (cur : string) (words : list string) : list string :=
  match cur with
  | EmptyString => words
  | _ => rev_string EmptyString cur :: words
  end.

Fixpoint split_from (cur : string) (s : string) : list string :=
  match s with
  | EmptyString => flush cur []
  | String c t =>
      if is_space c then flush cur (split_from EmptyString t)
      else split_from (String c cur) t
  end.

Definition split (s : string) : list string := split_from EmptyString s.

(** [len(s)] *)
Definition len (s : string) : Z := Z.of_nat (String.length s).

(** [x in l] for a list of strings *)
Definition mem (x : string) (l : list string) : bool :=
  existsb (String.eqb x) l.

(** The mathematical reading of "occurs as a substring". *)
Definition occurs (p s : string) : Prop :=
  exists pre post, s = pre ++ p ++ post.

End PyStr.

Import PyStr.

(** ** PromotionalDetector: [is_promotional_content] *)

Definition promo_indicators : list string :=
  [ "watch the video"; "tutorial below"; "link in bio"; "dm me"; "check out";
    "affiliate"; "sponsored"; "promotion"; "advertisement"; "buy now";
    "limited time"; "special offer"; "discount"; "sale"; "deal";
    "click here"; "subscribe"; "follow me"; "my channel"; "my course";
    "will change everything"; "secret method"; "exposed"; "truth about";
    "nobody talks about"; "revolutionary"; "game changer" ].

Definition url_patterns : list string :=
  [ "youtube.com"; "youtu.be"; "bit.ly"; "tinyurl.com"; "goo.gl" ].

(** The text both detectors look at: [f"{title} {content}".lower()]. *)
Definition combined_text (title content : string) : string :=
  lower (title ++ " " ++ content).

(** One [for ... : if x in text: promo_score += 1] loop, started at
    [promo_score]. *)
Definition count_loop (text : string) (xs : list string) (promo_score : Z) : Z :=
  fold_left (fun acc x => if str_in x text then acc + 1 else acc) xs promo_score.

(** The value of [promo_score] after both loops, as a function of [text]. *)
Definition promo_score_of (text : string) : Z :=
  count_loop text url_patterns (count_loop text promo_indicators 0).

Definition promo_score (title content : string) : Z :=
  promo_score_of (combined_text title content).

Definition is_promotional_content (title content : string) : bool :=
  promo_score title content >=? 2.

(** ** QuestionDetector: [is_genuine_question] *)

Definition question_words : list string :=
  [ "?"; "how"; "what"; "why"; "which"; "where"; "when"; "who" ].

Definition help_words : list string :=
  [ "help"; "advice"; "recommend"; "suggest"; "opinion"; "thoughts" ].

Definition seeking_words : list string :=
  [ "looking for"; "need"; "want"; "seeking"; "trying to find" ].

Definition is_genuine_question (title content : string) : bool :=
  let text := combined_text title content in
  let has_question_word := existsb (fun word => str_in word text) question_words in
  let has_help_word := existsb (fun word => str_in word text) help_words in
  let has_seeking_word := existsb (fun phrase => str_in phrase text) seeking_words in
  has_question_word || has_help_word || has_seeking_word.

(** ** RelevanceScorer: [calculate_enhanced_relevance_score] *)

Definition seo_related : list string :=
  [ "search engine optimization"; "digital marketing"; "google ranking";
    "website traffic"; "keyword research"; "backlinks"; "optimization";
    "ranking"; "search engine"; "google"; "marketing"; "traffic";
    "organic"; "serp"; "meta"; "analytics" ].

Definition course_related : list string :=
  [ "tutorial"; "learn"; "training"; "education"; "class"; "lesson";
    "certification"; "certificate"; "program"; "bootcamp"; "academy";
    "instructor"; "teacher"; "beginner"; "advanced"; "online learning" ].

Definition question_contexts : list string :=
  [ "best course"; "recommend course"; "good course"; "which course";
    "course recommendation"; "learning"; "study"; "beginner";
    "start with"; "where to learn"; "how to learn" ].

(** [for term in terms: if term in full_text: score += 0.15] *)
Definition term_loop (full_text : string) (terms : list string) (score : float)
  : float :=
  fold_left
    (fun acc term => if str_in term full_text then (acc + 0.15)%float else acc)
    terms score.

(** [for context in question_contexts: if context in full_text:
    score += 0.2; break] *)
Fixpoint context_loop (full_text : string) (contexts : list string)
  (score : float) : float :=
  match contexts with
  | [] => score
  | context :: rest =>
      if str_in context full_text then (score + 0.2)%float
      else context_loop full_text rest score
  end.

(** Python's [min(a, b)] on two floats: [b] when [b < a], else [a]. *)
Definition py_min (a b : float) : float :=
  if (b <? a)%float then b else a.

(** The value of [score] when the penalty test is reached. *)
Definition score_before_penalty (title content keyword : string) : float :=
  let keyword_lower := lower keyword in
  let title_lower := lower title in
  let content_lower := if String.eqb content "" then "" else lower content in
  let full_text := title_lower ++ " " ++ content_lower in
  let score := 0%float in
  let score :=
    if str_in keyword_lower title_lower then
      let score := (score + 0.5)%float in
      let title_words := split title_lower in
      if existsb (fun word => str_in keyword_lower word || str_in word keyword_lower)
           title_words
      then (score + 0.2)%float else score
    else score in
  let score :=
    if str_in keyword_lower content_lower then (score + 0.3)%float else score in
  let score :=
    if str_in "seo" keyword_lower then term_loop full_text seo_related score
    else score in
  let score :=
    if str_in "course" keyword_lower then term_loop full_text course_related score
    else score in
  context_loop full_text question_contexts score.

Definition calculate_enhanced_relevance_score (title content keyword : string)
  : float :=
  let score := score_before_penalty title content keyword in
  let score :=
    if is_promotional_content title content then (score * 0.3)%float else score in
  py_min score 1%float.

(** The additive bonuses of the scorer, one entry per bonus earned, in the
    order the scorer grants them. *)
Definition additive_bonuses (title content keyword : string) : list float :=
  let k := lower keyword in
  let t := lower title in
  let c := lower content in
  let full := t ++ " " ++ c in
  let per_match terms :=
    map (fun _ => 0.15%float) (filter (fun term => str_in term full) terms) in
  (if str_in k t then
     0.5%float ::
     (if existsb (fun w => str_in k w || str_in w k) (split t)
      then [0.2%float] else [])
   else [])
  ++ (if str_in k c then [0.3%float] else [])
  ++ (if str_in "seo" k then per_match seo_related else [])
  ++ (if str_in "course" k then per_match course_related else [])
  ++ (if existsb (fun ctx => str_in ctx full) question_contexts
      then [0.2%float] else []).

(** Their sum, accumulated from 0.0 in that order. *)
Definition additive_sum (title content keyword : string) : float :=
  fold_left PrimFloat.add (additive_bonuses title content keyword) 0%float.

(** A score lies in the closed unit interval. *)
Definition in_unit_interval (x : float) : Prop :=
  (0 <=? x)%float = true /\ (x <=? 1)%float = true.

(** ** CommentQualityFilter: [is_meaningful_comment] *)

Definition low_quality : list string :=
  [ "thanks"; "thank you"; "thx"; "+1"; "same"; "this"; "agreed";
    "yes"; "no"; "upvoted"; "bump"; "following"; "interested";
    "me too"; "same here"; "lol"; "nice"; "cool"; "good luck" ].

Definition meaningful_indicators : list string :=
  [ "recommend"; "suggest"; "try"; "use"; "check out"; "experience";
    "worked for me"; "helped me"; "solution"; "answer"; "result" ].

(** [len(comment_body.split())] *)
Definition word_count (comment_body : string) : Z :=
  Z.of_nat (List.length (split comment_body)).

Definition is_meaningful_comment (comment_body : string) : bool :=
  if String.eqb comment_body "" || (len (strip comment_body) <? 15) then false
  else
    let comment_lower := strip (lower comment_body) in
    if mem comment_lower low_quality then false
    else
      let word_count := word_count comment_body in
      let has_meaningful_content :=
        existsb (fun indicator => str_in indicator comment_lower)
          meaningful_indicators in
      (word_count >=? 5) && (has_meaningful_content || (word_count >=? 20)).

(** ** UnansweredClassifier: [is_unanswered_enhanced] *)

(** An element of a comment listing: [body] is [None] for an object
    without a [body] attribute. *)
Record Comment := { body : option string }.

Inductive outcome (A : Type) : Type :=
| Returns (a : A)
| Raises.
Arguments Returns {A} a.
Arguments Raises {A}.

(** What the Reddit client answers for one post.  The attribute
    [num_comments] is read several times and each read may fail or
    succeed on its own; [replace_more] is the call
    [comments.replace_more(limit=1)], and [comments] the top-level
    listing that is sliced after it. *)
Record Submission := {
  num_comments : nat -> outcome Z;
  replace_more : outcome unit;
  comments : outcome (list Comment)
}.

(** How often the client was asked for what. *)
Record Calls := { reads : nat; fetches : nat }.

Definition no_calls : Calls := {| reads := 0; fetches := 0 |}.

Module Eff.

(** Computations that count their client calls and may raise. *)
Definition M (A : Type) : Type := Calls -> outcome A * Calls.

Definition ret {A} (a : A) : M A := fun s => (Returns a, s).

Definition bind {A B} (m : M A) (k : A -> M B) : M B :=
  fun s =>
    match m s with
    | (Returns a, s') => k a s'
    | (Raises, s') => (Raises, s')
    end.

(** [try: body except: handler] *)
Definition try_except {A} (body handler : M A) : M A :=
  fun s =>
    match body s with
    | (Returns a, s') => (Returns a, s')
    | (Raises, s') => handler s'
    end.

Definition get_num_comments (submission : Submission) : M Z :=
  fun s =>
    (num_comments submission (reads s),
     {| reads := S (reads s); fetches := fetches s |}).

Definition fetch {A} (o : outcome A) : M A :=
  fun s => (o, {| reads := reads s; fetches := S (fetches s) |}).

End Eff.

Import Eff.

Notation "x <- m ;; k" := (bind m (fun x => k))
  (at level 61, m at next level, right associativity).

(** [s[:stop]] on a list. *)
Definition slice_to {A} (stop : Z) (l : list A) : list A :=
  if 0 <=? stop then firstn (Z.to_nat stop) l
  else firstn (Z.to_nat (Z.of_nat (List.length l) + stop)) l.

Definition deletion_markers : list string := [ "[deleted]"; "[removed]" ].

(** [s.startswith((p1, p2, ...))] *)
Definition startswith_any (ps : list string) (s : string) : bool :=
  existsb (fun p => startswith p s) ps.

(** The three nested tests a comment must pass for
    [meaningful_comments += 1] to run. *)
Definition counts_as_meaningful (comment : Comment) : bool :=
  match body comment with
  | Some b =>
      if negb (String.eqb b "") then
        if negb (startswith_any deletion_markers (lower b)) then
          is_meaningful_comment b
        else false
      else false
  | None => false
  end.

(** The [for comment in ...] loop: [false] as soon as the running total
    exceeds [max_comments // 2], [true] when the listing is exhausted. *)
Fixpoint scan_comments (max_comments : Z) (cs : list Comment)
  (meaningful_comments : Z) : bool :=
  match cs with
  | [] => true
  | comment :: rest =>
      if counts_as_meaningful comment then
        let meaningful_comments := meaningful_comments + 1 in
        if meaningful_comments >? max_comments / 2 then false
        else scan_comments max_comments rest meaningful_comments
      else scan_comments max_comments rest meaningful_comments
  end.

Definition is_unanswered_enhanced (submission : Submission) (max_comments : Z)
  : M bool :=
  try_except
    (n <- get_num_comments submission ;;
     if n =? 0 then ret true
     else
       n <- get_num_comments submission ;;
       if n >? max_comments * 2 then ret false
       else
         n <- get_num_comments submission ;;
         if n <=? max_comments then
           try_except
             (_ <- fetch (replace_more submission) ;;
              cs <- fetch (comments submission) ;;
              ret (scan_comments max_comments
                     (slice_to (max_comments + 2) cs) 0))
             (ret true)
         else ret false)
    (n <- get_num_comments submission ;;
     ret (n <=? max_comments)).

(** The number of comments of a listing that the loop would count. *)
Definition meaningful_total (cs : list Comment) : Z :=
  Z.of_nat (List.length (filter counts_as_meaningful cs)).

(** A post whose comment count reads as [n] every time. *)
Definition reads_as (submission : Submission) (n : Z) : Prop :=
  forall i, num_comments submission i = Returns n.

(** ** The per-post filters of [search_unanswered_questions_enhanced] *)

Record Post := {
  title : string;
  selftext : string;
  score : Z;
  thread : Submission
}.

Record Settings := {
  keyword : string;
  min_score : Z;
  relevance_threshold : float;
  max_comments_threshold : Z;
  question_only_mode : bool;
  filter_promotional : bool;
  min_content_length : Z
}.

(** The test of the content length filter: [true] when the loop runs
    [continue]. *)
Definition content_length_rejects (p : Post) (cfg : Settings) : bool :=
  let content_length :=
    if negb (String.eqb (selftext p) "") then len (selftext p) else 0 in
  (content_length <? min_content_length cfg) && negb (endswith "?" (title p)).

(** Where a post leaves the loop body before the unanswered check. *)
Inductive verdict : Type :=
| below_min_score
| too_short
| promotional
| not_a_question
| irrelevant
| relevant (relevance : float).

Definition screen (p : Post) (cfg : Settings) : verdict :=
  if score p <? min_score cfg then below_min_score
  else if content_length_rejects p cfg then too_short
  else if filter_promotional cfg && is_promotional_content (title p) (selftext p)
  then promotional
  else if question_only_mode cfg
          && negb (is_genuine_question (title p) (selftext p))
  then not_a_question
  else
    let relevance :=
      calculate_enhanced_relevance_score (title p) (selftext p) (keyword cfg) in
    if (relevance <? relevance_threshold cfg)%float then irrelevant
    else relevant relevance.

(** ** Vocabulary of the properties *)

(** How many phrases of [xs] occur in [text]. *)
Definition match_count (xs : list string) (text : string) : Z :=
  Z.of_nat (List.length (filter (fun x => str_in x text) xs)).

(** [s] ends with a question mark. *)
Definition ends_with_question_mark (s : string) : Prop :=
  exists pre, s = pre ++ "?".

(** A phrase whose first and last characters are not white space. *)
Definition begins_nonspace (p : string) : bool :=
  match p with
  | EmptyString => false
  | String a _ => negb (is_space a)
  end.

Fixpoint ends_nonspace (p : string) : bool :=
  match p with
  | EmptyString => false
  | String a EmptyString => negb (is_space a)
  | String _ p' => ends_nonspace p'
  end.

Definition solid (p : string) : bool := begins_nonspace p && ends_nonspace p.

(** The comment of the worked example. *)
Definition moz_comment : string :=
  "I recommend trying the free Moz course, it really worked for me and covers on-page SEO basics well".

(** [score += 0.15], [n] times. *)
Definition add_terms (n : nat) (score : float) : float :=
  Nat.iter n (fun acc => (acc + 0.15)%float) score.

(** The scorer's result as a function of the tests it makes: keyword in
    title, title word bonus, keyword in body, number of term matches,
    context bonus, promotional. *)
Definition score_table (in_title word_bonus in_body : bool) (matches : nat)
  (context promo : bool) : float :=
  let score := 0%float in
  let score :=
    if in_title then
      let score := (score + 0.5)%float in
      if word_bonus then (score + 0.2)%float else score
    else score in
  let score := if in_body then (score + 0.3)%float else score in
  let score := add_terms matches score in
  let score := if context then (score + 0.2)%float else score in
  let score := if promo then (score * 0.3)%float else score in
  py_min score 1%float.

Definition unit_interval_check (x : float) : bool :=
  ((0 <=? x) && (x <=? 1))%float.

Definition score_table_check : bool :=
  let bools := [true; false] in
  forallb (fun in_title =>
  forallb (fun word_bonus =>
  forallb (fun in_body =>
  forallb (fun matches =>
  forallb (fun context =>
  forallb (fun promo =>
    unit_interval_check
      (score_table in_title word_bonus in_body matches context promo))
  bools) bools) (seq 0 33)) bools) bools) bools.

(** The classifier run on a fresh call counter: its answer and the
    number of comment requests it made. *)
Definition answer (submission : Submission) (max_comments : Z) : outcome bool :=
  fst (is_unanswered_enhanced submission max_comments no_calls).

Definition comment_requests (submission : Submission) (max_comments : Z) : nat :=
  fetches (snd (is_unanswered_enhanced submission max_comments no_calls)).

(** The three reads of the comment count succeed and lead into the
    comment-quality branch. *)
Definition enters_quality_branch (submission : Submission) (max_comments : Z)
  : Prop :=
  exists n0 n1 n2,
    num_comments submission 0%nat = Returns n0 /\ n0 <> 0
    /\ num_comments submission 1%nat = Returns n1 /\ n1 <= max_comments * 2
    /\ num_comments submission 2%nat = Returns n2 /\ n2 <= max_comments.

(** Read number [k] of the comment count is reached and raises. *)
Definition raises_at_outer_level (submission : Submission) (max_comments : Z)
  (k : nat) : Prop :=
  match k with
  | 0%nat => num_comments submission 0%nat = Raises
  | 1%nat =>
      exists n0, num_comments submission 0%nat = Returns n0 /\ n0 <> 0
                 /\ num_comments submission 1%nat = Raises
  | 2%nat =>
      exists n0 n1,
        num_comments submission 0%nat = Returns n0 /\ n0 <> 0
        /\ num_comments submission 1%nat = Returns n1 /\ n1 <= max_comments * 2
        /\ num_comments submission 2%nat = Raises
  | _ => False
  end.

(** The comments of a listing that [is_meaningful_comment] accepts,
    whatever their body starts with. *)
Definition passes_quality_filter (comment : Comment) : bool :=
  match body comment with
  | Some b => is_meaningful_comment b
  | None => false
  end.

Definition quality_total (cs : list Comment) : Z :=
  Z.of_nat (List.length (filter passes_quality_filter cs)).

(** Sample posts. *)
Definition steady_post (n : Z) (expansion : outcome unit)
  (listing : outcome (list Comment)) : Submission :=
  {| num_comments := fun _ => Returns n;
     replace_more := expansion;
     comments := listing |}.


Definition text_comment (b : string) : Comment := {| body := Some b |}.

Definition marked_comment : Comment :=
  text_comment ("[removed] " ++ moz_comment).

(** The default settings of the search form, for the keyword
    "seo course", and two posts with a short body. *)
Definition default_settings : Settings :=
  {| keyword := "seo course";
     min_score := 0;
     relevance_threshold := 0.3%float;
     max_comments_threshold := 5;
     question_only_mode := true;
     filter_promotional := true;
     min_content_length := 50 |}.

Definition short_question : Post :=
  {| title := "Best SEO course for beginners?";
     selftext := "";
     score := 3;
     thread := steady_post 0 Raises Raises |}.

Definition short_statement : Post :=
  {| title := "Best SEO course for beginners";
     selftext := "Any ideas";
     score := 3;
     thread := steady_post 0 Raises Raises |}.

(** ** Further vocabulary *)

(** Some character of [s] is white space. *)
Fixpoint has_space (s : string) : bool :=
  match s with
  | EmptyString => false
  | String c t => is_space c || has_space t
  end.

(** [P] holds of every entry of [score_table] with at most [max_matches]
    term matches. *)
Definition table_all
  (P : bool -> bool -> bool -> nat -> bool -> bool -> float -> bool)
  (max_matches : nat) : bool :=
  let bools := [true; false] in
  forallb (fun in_title =>
  forallb (fun word_bonus =>
  forallb (fun in_body =>
  forallb (fun matches =>
  forallb (fun context =>
  forallb (fun promo =>
    P in_title word_bonus in_body matches context promo
      (score_table in_title word_bonus in_body matches context promo))
  bools) bools) (seq 0 (S max_matches))) bools) bools) bools.

(** The closed form of [is_meaningful_comment] without the low-quality
    phrase list. *)
Definition meaningful_by_size_and_content (comment_body : string) : bool :=
  (15 <=? len (strip comment_body))
  && (5 <=? word_count comment_body)
  && (existsb (fun indicator => str_in indicator (lower comment_body))
        meaningful_indicators
      || (20 <=? word_count comment_body)).

(** Settings with every filter at its most lenient. *)
Definition lenient_settings : Settings :=
  {| keyword := "python";
     min_score := -10;
     relevance_threshold := 0%float;
     max_comments_threshold := 15;
     question_only_mode := false;
     filter_promotional := false;
     min_content_length := 0 |}.

Definition off_topic_post : Post :=
  {| title := "Cooking rice";
     selftext := "";
     score := 1;
     thread := steady_post 0 Raises Raises |}.

(** A post whose client fails on the first two reads of the count. *)
Definition broken_post : Submission :=
  {| num_comments := fun _ => Raises;
     replace_more := Returns tt;
     comments := Returns [] |}.

(** ** The search loop of [search_unanswered_questions_enhanced] *)

(** A search result: the post with its [id]. *)
Record Candidate := { id : string; post : Post }.

Definition search_terms (keyword : string) : list string :=
  [ keyword; keyword ++ " help"; keyword ++ " advice"; keyword ++ " recommend" ].

(** The client's search: subreddit, search term and limit to the posts
    found, or a failure. *)
Definition Search : Type := string -> string -> Z -> outcome (list Candidate).

(** [all_submissions] after the loop over [search_terms[:2]]: a search
    that raises is skipped. [subreddit_name] is [None] or empty for a
    search of all subreddits. *)
Definition all_submissions (search : Search) (subreddit_name : option string)
  (keyword : string) (limit : Z) : list Candidate :=
  let subreddit :=
    match subreddit_name with
    | Some name => if String.eqb name "" then "all" else name
    | None => "all"
    end in
  fold_left
    (fun all search_term =>
       match search subreddit search_term (limit * 3) with
       | Returns results => (all ++ results)%list
       | Raises => all
       end)
    (firstn 2 (search_terms keyword)) [].

(** [d[k] = v] on a dictionary kept in insertion order. *)
Fixpoint dict_set {A} (k : string) (v : A) (d : list (string * A))
  : list (string * A) :=
  match d with
  | [] => [(k, v)]
  | (k', v') :: d' =>
      if String.eqb k' k then (k', v) :: d' else (k', v') :: dict_set k v d'
  end.

(** [{sub.id: sub for sub in all_submissions}.values()] *)
Definition unique_submissions (all : list Candidate) : list Candidate :=
  map snd (fold_left (fun d sub => dict_set (id sub) sub d) all []).

(** What a row of [questions] is computed from: the post, its relevance
    and the comment count read for the row. *)
Record Hit := {
  hit_candidate : Candidate;
  hit_relevance : float;
  hit_comments : Z
}.

(** The loop over [unique_submissions]: [Raises] when the unanswered
    check or the read of the comment count for the row raises. *)
Fixpoint collect (cfg : Settings) (limit : Z) (subs : list Candidate)
  (found_unanswered : Z) (questions : list Hit) : outcome (list Hit) :=
  match subs with
  | [] => Returns questions
  | submission :: rest =>
      if found_unanswered >=? limit then Returns questions
      else
        match screen (post submission) cfg with
        | relevant relevance =>
            let sub := thread (post submission) in
            match is_unanswered_enhanced sub (max_comments_threshold cfg)
                    no_calls with
            | (Returns true, calls) =>
                match num_comments sub (reads calls) with
                | Returns n =>
                    collect cfg limit rest (found_unanswered + 1)
                      (questions
                       ++ [ {| hit_candidate := submission;
                               hit_relevance := relevance;
                               hit_comments := n |} ])%list
                | Raises => Raises
                end
            | (Returns false, _) =>
                collect cfg limit rest found_unanswered questions
            | (Raises, _) => Raises
            end
        | _ => collect cfg limit rest found_unanswered questions
        end
  end.

(** The rows of the function in the order the loop appends them, before
    they are sorted; the handler of the function answers an exception
    with the empty list. *)
Definition questions_before_sort (search : Search) (cfg : Settings)
  (subreddit_name : option string) (limit : Z) : list Hit :=
  match collect cfg limit
          (unique_submissions
             (all_submissions search subreddit_name (keyword cfg) limit))
          0 []
  with
  | Returns questions => questions
  | Raises => []
  end.

(** The ['Content'] cell of a row. *)
Definition content_cell (selftext : string) : string :=
  if len selftext >? 400 then substring 0 400 selftext ++ "..." else selftext.

(** A candidate passes every filter and is classified unanswered. *)
Definition accepted (cfg : Settings) (c : Candidate) : bool :=
  match screen (post c) cfg with
  | relevant _ =>
      match answer (thread (post c)) (max_comments_threshold cfg) with
      | Returns true => true
      | _ => false
      end
  | _ => false
  end.

(** The comment count of a candidate can be read, always with the same
    result. *)
Definition readable (c : Candidate) : Prop :=
  exists n, reads_as (thread (post c)) n.

(** The dictionary built from the submissions seen so far. *)
Definition id_dict (seen : list Candidate) : list (string * Candidate) :=
  fold_left (fun d sub => dict_set (id sub) sub d) seen [].

(** [c] is the last submission of [all] with its id. *)
Definition last_with_id (c : Candidate) (all : list Candidate) : Prop :=
  exists before after,
    all = (before ++ c :: after)%list /\ ~ In (id c) (map id after).

(** Sample candidates: a post that passes every filter and has no
    comments, the same post behind a client that fails, and a post that
    the content length filter turns away. *)
Definition good_candidate : Candidate :=
  {| id := "a1"; post := short_question |}.

Definition broken_candidate : Candidate :=
  {| id := "b2";
     post := {| title := "Best SEO course for beginners?";
                selftext := "";
                score := 3;
                thread := broken_post |} |}.

Definition short_candidate : Candidate :=
  {| id := "c3"; post := short_statement |}.

(** A client whose search for the keyword itself succeeds and whose
    other searches fail. *)
Definition sample_search (found : list Candidate) : Search :=
  fun _ search_term _ =>
    if String.eqb search_term "seo course" then Returns found else Raises.

(** * Properties *)

(** ** Strings *)

Example lower_ex : lower "How do I FIX this?" = "how do i fix this?".
Proof. reflexivity. Qed.

Example split_ex :
  split "  Best SEO  course for beginners? " =
  ["Best"; "SEO"; "course"; "for"; "beginners?"].
Proof. reflexivity. Qed.

Example strip_ex : strip "  thanks a lot   " = "thanks a lot".
Proof. reflexivity. Qed.

Example strip_blank_ex :
  strip "   " = "" /\ rstrip "a b  " = "a b" /\ lstrip "  a b " = "a b "
  /\ split "" = [] /\ split "   " = [] /\ split "one" = ["one"].
Proof. repeat split. Qed.

Example endswith_ex :
  endswith "?" "why?" = true /\ endswith "?" "why? " = false
  /\ endswith "?" "" = false.
Proof. repeat split. Qed.

Example str_in_ex :
  str_in "buy now" "great deal!!! buy now" = true
  /\ str_in "" "" = true /\ str_in "who" "w ho" = false.
Proof. repeat split. Qed.

Lemma app_empty_r (s : string) : s ++ "" = s.
Proof. induction s as [|c s IH]; simpl; [reflexivity | now rewrite IH]. Qed.

Lemma app_assoc_s (a b c : string) : (a ++ b) ++ c = a ++ b ++ c.
Proof. induction a as [|x a IH]; simpl; [reflexivity | now rewrite IH]. Qed.

Lemma lower_app (a b : string) : lower (a ++ b) = lower a ++ lower b.
Proof. induction a as [|x a IH]; simpl; [reflexivity | now rewrite IH]. Qed.

Lemma startswith_spec (p s : string) :
  startswith p s = true <-> exists post, s = p ++ post.
Proof.
  revert s; induction p as [|a p IH]; intros s; simpl.
  - split; [intros _; now exists s | reflexivity].
  - destruct s as [|b s].
    + split; [discriminate | intros [post H]; discriminate].
    + rewrite andb_true_iff, Ascii.eqb_eq, IH. split.
      * intros [-> [post ->]]. now exists post.
      * intros [post H]. injection H as -> ->. split; [reflexivity | now exists post].
Qed.

Lemma str_in_spec (p s : string) : str_in p s = true <-> occurs p s.
Proof.
  unfold occurs. induction s as [|c s IH].
  - simpl. rewrite orb_false_r, startswith_spec. split.
    + intros [post H]. now exists "", post.
    + intros [pre [post H]]. destruct pre; [now exists post | discriminate].
  - cbn [str_in]. rewrite orb_true_iff, startswith_spec, IH. split.
    + intros [[post H] | [pre [post H]]].
      * now exists "", post.
      * exists (String c pre), post. simpl. now rewrite H.
    + intros [[|x pre] [post H]].
      * left. now exists post.
      * right. simpl in H. injection H as -> ->. now exists pre, post.
Qed.

Lemma occurs_extend (p s pre post : string) :
  occurs p s -> occurs p (pre ++ s ++ post).
Proof.
  intros [a [b ->]]. exists (pre ++ a), (b ++ post).
  now rewrite !app_assoc_s.
Qed.

Lemma str_in_extend (p s pre post : string) :
  str_in p s = true -> str_in p (pre ++ s ++ post) = true.
Proof. rewrite !str_in_spec. apply occurs_extend. Qed.

Lemma endswith_spec (p s : string) :
  endswith p s = true <-> exists pre, s = pre ++ p.
Proof.
  induction s as [|c s IH].
  - simpl. rewrite orb_false_r, String.eqb_eq. split.
    + intros ->. now exists "".
    + intros [[|x pre] H]; simpl in H; [easy | discriminate].
  - cbn [endswith]. rewrite orb_true_iff, String.eqb_eq, IH. split.
    + intros [-> | [pre ->]]; [now exists "" | now exists (String c pre)].
    + intros [[|x pre] H]; simpl in H.
      * now left.
      * right. injection H as -> ->. now exists pre.
Qed.

(** ** Counting loops *)

Lemma count_loop_spec (text : string) (xs : list string) (a : Z) :
  count_loop text xs a = a + match_count xs text.
Proof.
  unfold count_loop, match_count. revert a.
  induction xs as [|x xs IH]; intros a; simpl.
  - lia.
  - rewrite IH. destruct (str_in x text); simpl List.length; lia.
Qed.

Lemma promo_score_of_spec (text : string) :
  promo_score_of text =
  match_count promo_indicators text + match_count url_patterns text.
Proof. unfold promo_score_of. rewrite !count_loop_spec. lia. Qed.

Lemma filter_length_mono {A} (f g : A -> bool) (l : list A) :
  (forall x, f x = true -> g x = true) ->
  (List.length (filter f l) <= List.length (filter g l))%nat.
Proof.
  intros H. induction l as [|x l IH]; simpl; [lia|].
  destruct (f x) eqn:Hf.
  - rewrite (H x Hf). simpl. lia.
  - destruct (g x); simpl; lia.
Qed.

Lemma match_count_extend (xs : list string) (text pre post : string) :
  match_count xs text <= match_count xs (pre ++ text ++ post).
Proof.
  unfold match_count. apply inj_le, filter_length_mono.
  intros x. apply str_in_extend.
Qed.

Lemma promo_score_of_extend (text pre post : string) :
  promo_score_of text <= promo_score_of (pre ++ text ++ post).
Proof.
  rewrite !promo_score_of_spec.
  pose proof (match_count_extend promo_indicators text pre post).
  pose proof (match_count_extend url_patterns text pre post). lia.
Qed.

(** ** PromotionalDetector *)

(** C6. [is_promotional_content] answers true exactly when the number of
    promotional indicator phrases occurring in the lowercased
    [title + " " + content], plus the number of URL patterns occurring in
    it, is at least 2. *)
Theorem is_promotional_content_iff (title content : string) :
  is_promotional_content title content = true <->
  2 <= match_count promo_indicators (combined_text title content)
       + match_count url_patterns (combined_text title content).
Proof.
  unfold is_promotional_content, promo_score.
  rewrite promo_score_of_spec, Z.geb_le. reflexivity.
Qed.

Example promotional_ex :
  is_promotional_content "Great deal!!!" "buy now" = true
  /\ is_promotional_content "Buy" "now" = false
  /\ promo_score "Huge SALE" "see youtu.be/x and click here" = 3.
Proof. repeat split. Qed.

(** C8, as the code has it. The match count never decreases when text
    is appended to the text it is computed from, the lowercased
    [title + " " + content], and so when text is appended to the body
    of a post. *)
Theorem promo_score_monotone :
  (forall text extra : string,
      promo_score_of text <= promo_score_of (text ++ extra))
  /\ (forall title content extra : string,
         promo_score title content <= promo_score title (content ++ extra)).
Proof.
  split.
  - intros text extra. apply (promo_score_of_extend text "" extra).
  - intros title content extra. unfold promo_score, combined_text.
    assert (E : lower (title ++ " " ++ content ++ extra)
                = lower (title ++ " " ++ content) ++ lower extra).
    { rewrite <- lower_app. f_equal. now rewrite !app_assoc_s. }
    rewrite E.
    apply (promo_score_of_extend (lower (title ++ " " ++ content)) ""
             (lower extra)).
Qed.

(** C8 as stated fails for the title, the detector's other text input:
    with the body "now", the title "sale buy" matches "sale" and
    "buy now"; with " sale" appended to it the phrase "buy now" is
    broken, the count drops from 2 to 1 and the post is no longer
    promotional. *)
Lemma promo_score_title_counterexample :
  promo_score "sale buy" "now" = 2
  /\ promo_score ("sale buy" ++ " sale") "now" = 1
  /\ is_promotional_content "sale buy" "now" = true
  /\ is_promotional_content ("sale buy" ++ " sale") "now" = false
  /\ ~ (forall title content extra : string,
           promo_score title content <= promo_score (title ++ extra) content).
Proof.
  repeat split. intros H.
  specialize (H "sale buy" "now" " sale"). vm_compute in H. now apply H.
Qed.

(** Text added to the end of the title is not an extension of the
    combined text: it can break a phrase that ran from the title into
    the body. *)
Remark promo_score_title_ex :
  promo_score "Buy" "now" = 1 /\ promo_score "Buy it" "now" = 0.
Proof. split; reflexivity. Qed.

(** ** QuestionDetector *)

Lemma existsb_str_in (xs : list string) (text : string) :
  existsb (fun w => str_in w text) xs = true <->
  exists w, In w xs /\ occurs w text.
Proof.
  rewrite existsb_exists. split; intros [w [Hin H]]; exists w; split; auto;
    now apply str_in_spec.
Qed.

(** C5. [is_genuine_question] answers true exactly when one of the
    question indicators, help words or seeking phrases occurs in the
    lowercased [title + " " + content]; it is true of
    ("How do I fix this?", "") and false of ("Great deal!!!", "buy now"). *)
Theorem is_genuine_question_iff :
  (forall title content : string,
      is_genuine_question title content = true <->
      exists w, In w (question_words ++ help_words ++ seeking_words)
                /\ occurs w (combined_text title content))
  /\ is_genuine_question "How do I fix this?" "" = true
  /\ is_genuine_question "Great deal!!!" "buy now" = false.
Proof.
  split; [|split; reflexivity].
  intros title content. unfold is_genuine_question.
  rewrite !orb_true_iff, !existsb_str_in. split.
  - intros [[[w [Hin H]] | [w [Hin H]]] | [w [Hin H]]]; exists w; split; auto;
      rewrite !in_app_iff; auto.
  - intros [w [Hin H]]. rewrite !in_app_iff in Hin.
    destruct Hin as [Hin | [Hin | Hin]]; [left; left | left; right | right];
      now exists w.
Qed.

(** ** CommentQualityFilter *)

Lemma begins_nonspace_startswith (p : string) (c : ascii) (t : string) :
  begins_nonspace p = true -> is_space c = true ->
  startswith p (String c t) = false.
Proof.
  destruct p as [|a p]; simpl; [discriminate|].
  intros Ha Hc. destruct (Ascii.eqb a c) eqn:E; [|reflexivity].
  apply Ascii.eqb_eq in E. subst. rewrite Hc in Ha. discriminate.
Qed.

Lemma str_in_lstrip (p s : string) :
  begins_nonspace p = true -> str_in p (lstrip s) = str_in p s.
Proof.
  intros Hp. induction s as [|c s IH]; [reflexivity|].
  cbn [lstrip]. destruct (is_space c) eqn:Hc; [|reflexivity].
  cbn [str_in]. now rewrite IH, (begins_nonspace_startswith p c s Hp Hc).
Qed.

Lemma ends_nonspace_cons (a : ascii) (p : string) :
  p <> "" -> ends_nonspace (String a p) = ends_nonspace p.
Proof. destruct p; [congruence | reflexivity]. Qed.

Lemma rstrip_cons (c : ascii) (t : string) :
  rstrip (String c t) = "" /\ rstrip t = "" /\ is_space c = true
  \/ rstrip (String c t) = String c (rstrip t).
Proof.
  cbn [rstrip]. destruct (rstrip t) eqn:E.
  - destruct (is_space c); [left | right]; auto.
  - now right.
Qed.

Lemma startswith_rstrip (p s : string) :
  ends_nonspace p = true -> startswith p (rstrip s) = startswith p s.
Proof.
  revert p. induction s as [|c s IH]; intros p Hp; [reflexivity|].
  destruct p as [|a p]; [discriminate|].
  destruct (rstrip_cons c s) as [[E0 [Es Hc]] | E].
  - rewrite E0. simpl. destruct p as [|b p].
    + simpl in Hp. destruct (Ascii.eqb a c) eqn:E; [|reflexivity].
      apply Ascii.eqb_eq in E. subst. now rewrite Hc in Hp.
    + rewrite ends_nonspace_cons in Hp by discriminate.
      rewrite <- (IH _ Hp), Es. simpl. now rewrite andb_false_r.
  - rewrite E. simpl. destruct p as [|b p]; [reflexivity|].
    rewrite ends_nonspace_cons in Hp by discriminate.
    now rewrite (IH _ Hp).
Qed.

Lemma str_in_rstrip (p s : string) :
  ends_nonspace p = true -> str_in p (rstrip s) = str_in p s.
Proof.
  intros Hp. induction s as [|c s IH]; [reflexivity|].
  cbn [str_in]. rewrite <- (startswith_rstrip p (String c s) Hp), <- IH.
  destruct (rstrip_cons c s) as [[E0 [Es Hc]] | E].
  - rewrite E0, Es. simpl. now rewrite orb_false_r, orb_diag.
  - rewrite E. reflexivity.
Qed.

Lemma str_in_strip (p s : string) :
  solid p = true -> str_in p (strip s) = str_in p s.
Proof.
  unfold solid, strip. rewrite andb_true_iff. intros [Hb He].
  now rewrite str_in_rstrip, str_in_lstrip.
Qed.

Lemma meaningful_indicators_solid :
  forall p, In p meaningful_indicators -> solid p = true.
Proof. apply forallb_forall. reflexivity. Qed.

Lemma existsb_strip (s : string) :
  existsb (fun indicator => str_in indicator (strip s)) meaningful_indicators
  = existsb (fun indicator => str_in indicator s) meaningful_indicators.
Proof.
  pose proof meaningful_indicators_solid as H.
  induction meaningful_indicators as [|p l IH]; [reflexivity|].
  simpl. rewrite str_in_strip by (apply H; now left).
  rewrite IH; [reflexivity|]. intros q Hq. apply H. now right.
Qed.

Lemma mem_spec (x : string) (l : list string) : mem x l = true <-> In x l.
Proof.
  unfold mem. rewrite existsb_exists. split.
  - intros [y [Hin E]]. apply String.eqb_eq in E. now subst.
  - intros Hin. exists x. split; [assumption | apply String.eqb_refl].
Qed.

Lemma strip_empty : strip "" = "".
Proof. reflexivity. Qed.

(** C3. [is_meaningful_comment] answers true exactly when the trimmed
    body has at least 15 characters, the trimmed lowercased body is none
    of the low-quality phrases, the body has at least 5 words, and it has
    at least 20 words or its lowercased text contains a meaningful
    indicator; it is false of "thanks" and true of the Moz
    recommendation. *)
Theorem is_meaningful_comment_iff :
  (forall comment_body : string,
      is_meaningful_comment comment_body = true <->
      15 <= len (strip comment_body)
      /\ ~ In (strip (lower comment_body)) low_quality
      /\ 5 <= word_count comment_body
      /\ (20 <= word_count comment_body
          \/ exists indicator, In indicator meaningful_indicators
                               /\ occurs indicator (lower comment_body)))
  /\ is_meaningful_comment "thanks" = false
  /\ is_meaningful_comment moz_comment = true.
Proof.
  split; [|split; reflexivity].
  intros b. unfold is_meaningful_comment.
  rewrite existsb_strip.
  destruct (String.eqb b "") eqn:Eb.
  - apply String.eqb_eq in Eb. subst b. simpl. split; [discriminate|].
    intros [H _]. unfold len in H. simpl in H. lia.
  - rewrite orb_false_l. destruct (len (strip b) <? 15) eqn:El.
    + apply Z.ltb_lt in El. split; [discriminate | intros [H _]; lia].
    + apply Z.ltb_ge in El.
      destruct (mem (strip (lower b)) low_quality) eqn:Em.
      * apply mem_spec in Em. split; [discriminate | intros [_ [H _]]; tauto].
      * assert (Hn : ~ In (strip (lower b)) low_quality).
        { intros H. apply mem_spec in H. congruence. }
        rewrite andb_true_iff, orb_true_iff, !Z.geb_le, existsb_str_in.
        split.
        -- intros [H5 [H | H]]; repeat split; auto.
        -- intros [_ [_ [H5 [H | H]]]]; split; auto.
Qed.

(** ** RelevanceScorer *)

Lemma term_loop_sum (full_text : string) (terms : list string) (score : float) :
  term_loop full_text terms score =
  fold_left PrimFloat.add
    (map (fun _ => 0.15%float) (filter (fun term => str_in term full_text) terms))
    score.
Proof.
  unfold term_loop. revert score.
  induction terms as [|t terms IH]; intros score; simpl; [reflexivity|].
  rewrite IH. now destruct (str_in t full_text).
Qed.

Lemma context_loop_once (full_text : string) (contexts : list string)
  (score : float) :
  context_loop full_text contexts score =
  if existsb (fun ctx => str_in ctx full_text) contexts
  then (score + 0.2)%float else score.
Proof.
  induction contexts as [|c contexts IH]; simpl; [reflexivity|].
  now destruct (str_in c full_text).
Qed.

Lemma content_lower_eq (content : string) :
  (if String.eqb content "" then "" else lower content) = lower content.
Proof.
  destruct (String.eqb content "") eqn:E; [|reflexivity].
  apply String.eqb_eq in E. now subst.
Qed.

Lemma score_before_penalty_sum (title content keyword : string) :
  score_before_penalty title content keyword =
  additive_sum title content keyword.
Proof.
  unfold score_before_penalty, additive_sum, additive_bonuses.
  rewrite content_lower_eq, context_loop_once.
  rewrite !fold_left_app.
  set (full := lower title ++ " " ++ lower content).
  destruct (str_in (lower keyword) (lower title));
    [destruct (existsb _ (split (lower title)))|];
    destruct (str_in (lower keyword) (lower content));
    destruct (str_in "seo" (lower keyword));
    destruct (str_in "course" (lower keyword));
    rewrite ?term_loop_sum;
    destruct (existsb (fun ctx => str_in ctx full) question_contexts);
    reflexivity.
Qed.

(** C4. The promotional penalty comes after every additive bonus and
    before the clamp: the result is the sum of the bonuses, times 0.3
    when [is_promotional_content] holds of the same title and body, and
    then limited to 1.0. *)
Theorem penalty_after_bonuses_before_clamp (title content keyword : string) :
  calculate_enhanced_relevance_score title content keyword =
  if is_promotional_content title content
  then py_min (additive_sum title content keyword * 0.3)%float 1%float
  else py_min (additive_sum title content keyword) 1%float.
Proof.
  unfold calculate_enhanced_relevance_score.
  rewrite score_before_penalty_sum.
  now destruct (is_promotional_content title content).
Qed.

Lemma term_loop_add_terms (full_text : string) (terms : list string)
  (score : float) :
  term_loop full_text terms score =
  add_terms (List.length (filter (fun term => str_in term full_text) terms))
    score.
Proof.
  unfold term_loop, add_terms. revert score.
  induction terms as [|t terms IH]; intros score; simpl; [reflexivity|].
  rewrite IH. destruct (str_in t full_text); [|reflexivity].
  simpl List.length. now rewrite Nat.iter_succ_r.
Qed.

Lemma add_terms_add (n m : nat) (score : float) :
  add_terms n (add_terms m score) = add_terms (n + m) score.
Proof. unfold add_terms. now rewrite Nat.iter_add. Qed.

Lemma filter_length_le {A} (f : A -> bool) (l : list A) :
  (List.length (filter f l) <= List.length l)%nat.
Proof.
  induction l as [|x l IH]; simpl; [lia|]. destruct (f x); simpl; lia.
Qed.

(** Every result of the scorer is an entry of [score_table] with at most
    32 term matches (16 per term list). *)
Lemma score_in_table (title content keyword : string) :
  exists in_title word_bonus in_body matches context,
    (matches <= 32)%nat
    /\ calculate_enhanced_relevance_score title content keyword =
       score_table in_title word_bonus in_body matches context
         (is_promotional_content title content).
Proof.
  unfold calculate_enhanced_relevance_score, score_before_penalty.
  rewrite content_lower_eq, context_loop_once.
  set (k := lower keyword). set (t := lower title). set (c := lower content).
  set (full := t ++ " " ++ c).
  set (n1 := if str_in "seo" k
             then List.length (filter (fun term => str_in term full) seo_related)
             else 0%nat).
  set (n2 := if str_in "course" k
             then List.length (filter (fun term => str_in term full) course_related)
             else 0%nat).
  exists (str_in k t),
    (existsb (fun word => str_in k word || str_in word k) (split t)),
    (str_in k c), (n2 + n1)%nat,
    (existsb (fun ctx => str_in ctx full) question_contexts).
  split.
  - assert (n1 <= 16)%nat.
    { subst n1. destruct (str_in "seo" k); [|lia].
      apply (filter_length_le _ seo_related). }
    assert (n2 <= 16)%nat.
    { subst n2. destruct (str_in "course" k); [|lia].
      apply (filter_length_le _ course_related). }
    lia.
  - unfold score_table. rewrite <- add_terms_add.
    subst n1 n2.
    destruct (str_in "seo" k), (str_in "course" k);
      rewrite ?term_loop_add_terms; reflexivity.
Qed.

Lemma score_table_checked : score_table_check = true.
Proof. vm_compute. reflexivity. Qed.

Lemma score_table_unit (in_title word_bonus in_body : bool) (matches : nat)
  (context promo : bool) :
  (matches <= 32)%nat ->
  in_unit_interval
    (score_table in_title word_bonus in_body matches context promo).
Proof.
  intros Hm. pose proof score_table_checked as H. unfold score_table_check in H.
  assert (Hb : forall b : bool, In b [true; false])
    by (intros []; simpl; auto).
  rewrite forallb_forall in H. specialize (H in_title (Hb _)).
  rewrite forallb_forall in H. specialize (H word_bonus (Hb _)).
  rewrite forallb_forall in H. specialize (H in_body (Hb _)).
  rewrite forallb_forall in H.
  specialize (H matches ltac:(apply in_seq; lia)).
  rewrite forallb_forall in H. specialize (H context (Hb _)).
  rewrite forallb_forall in H. specialize (H promo (Hb _)).
  unfold unit_interval_check in H. apply andb_true_iff in H.
  exact H.
Qed.

(** C1. For every title, body and keyword the relevance score is at
    least 0 and at most 1. *)
Theorem relevance_score_in_unit_interval (title content keyword : string) :
  in_unit_interval (calculate_enhanced_relevance_score title content keyword).
Proof.
  destruct (score_in_table title content keyword)
    as (b1 & b2 & b3 & n & b4 & Hn & ->).
  now apply score_table_unit.
Qed.

Example relevance_ex :
  calculate_enhanced_relevance_score
    "Best SEO course for beginners?"
    "Can anyone recommend course material or a tutorial?"
    "seo course" = 1%float
  /\ calculate_enhanced_relevance_score "Cooking rice" "" "python" = 0%float
  /\ calculate_enhanced_relevance_score
       "Python sale" "python deal" "python" = 0.3%float.
Proof. repeat split; vm_compute; reflexivity. Qed.

(** ** UnansweredClassifier *)

Lemma scan_comments_total (max_comments : Z) (cs : list Comment) (m : Z) :
  m <= max_comments / 2 ->
  scan_comments max_comments cs m =
  negb (max_comments / 2 <? m + meaningful_total cs).
Proof.
  unfold meaningful_total. revert m.
  induction cs as [|c cs IH]; intros m Hm; simpl.
  - symmetry. apply negb_true_iff, Z.ltb_ge. lia.
  - destruct (counts_as_meaningful c); simpl List.length.
    + destruct (m + 1 >? max_comments / 2) eqn:E.
      * symmetry. apply negb_false_iff, Z.ltb_lt.
        apply Z.gtb_lt in E. lia.
      * rewrite IH by (rewrite Z.gtb_ltb in E; apply Z.ltb_ge in E; lia).
        do 2 f_equal. lia.
    + now apply IH.
Qed.

Lemma run_zero (submission : Submission) (max_comments : Z) :
  num_comments submission 0%nat = Returns 0 ->
  is_unanswered_enhanced submission max_comments no_calls =
  (Returns true, {| reads := 1; fetches := 0 |}).
Proof.
  intros H. unfold is_unanswered_enhanced, try_except, bind, get_num_comments.
  simpl. now rewrite H.
Qed.

Lemma run_many (submission : Submission) (max_comments n0 n1 : Z) :
  num_comments submission 0%nat = Returns n0 -> n0 <> 0 ->
  num_comments submission 1%nat = Returns n1 -> n1 > max_comments * 2 ->
  is_unanswered_enhanced submission max_comments no_calls =
  (Returns false, {| reads := 2; fetches := 0 |}).
Proof.
  intros H0 Hn0 H1 Hn1.
  unfold is_unanswered_enhanced, try_except, bind, get_num_comments.
  simpl. rewrite H0. apply Z.eqb_neq in Hn0. rewrite Hn0. simpl. rewrite H1.
  apply Z.gtb_gt in Hn1. now rewrite Hn1.
Qed.

Lemma run_between (submission : Submission) (max_comments n0 n1 n2 : Z) :
  num_comments submission 0%nat = Returns n0 -> n0 <> 0 ->
  num_comments submission 1%nat = Returns n1 -> n1 <= max_comments * 2 ->
  num_comments submission 2%nat = Returns n2 -> max_comments < n2 ->
  is_unanswered_enhanced submission max_comments no_calls =
  (Returns false, {| reads := 3; fetches := 0 |}).
Proof.
  intros H0 Hn0 H1 Hn1 H2 Hn2.
  unfold is_unanswered_enhanced, try_except, bind, get_num_comments.
  simpl. rewrite H0. apply Z.eqb_neq in Hn0. rewrite Hn0. simpl. rewrite H1.
  assert (E1 : (n1 >? max_comments * 2) = false)
    by (rewrite Z.gtb_ltb; apply Z.ltb_ge; lia).
  rewrite E1. simpl. rewrite H2.
  assert (E2 : (n2 <=? max_comments) = false) by (apply Z.leb_gt; lia).
  now rewrite E2.
Qed.

Lemma run_branch (submission : Submission) (max_comments : Z) :
  enters_quality_branch submission max_comments ->
  is_unanswered_enhanced submission max_comments no_calls =
  try_except
    (_ <- fetch (replace_more submission) ;;
     cs <- fetch (comments submission) ;;
     ret (scan_comments max_comments (slice_to (max_comments + 2) cs) 0))
    (ret true)
    {| reads := 3; fetches := 0 |}.
Proof.
  intros (n0 & n1 & n2 & H0 & Hn0 & H1 & Hn1 & H2 & Hn2).
  unfold is_unanswered_enhanced at 1.
  unfold try_except at 1. unfold bind at 1. unfold get_num_comments at 1.
  simpl. rewrite H0. apply Z.eqb_neq in Hn0. rewrite Hn0.
  unfold bind at 1. unfold get_num_comments at 1. simpl. rewrite H1.
  assert (E1 : (n1 >? max_comments * 2) = false)
    by (rewrite Z.gtb_ltb; apply Z.ltb_ge; lia).
  rewrite E1.
  unfold bind at 1. unfold get_num_comments at 1. simpl. rewrite H2.
  apply Z.leb_le in Hn2. rewrite Hn2.
  unfold try_except. now destruct (bind _ _ _) as [[b|] s'].
Qed.

Lemma steady_enters (submission : Submission) (max_comments n : Z) :
  reads_as submission n -> 0 < n <= max_comments ->
  enters_quality_branch submission max_comments.
Proof.
  intros H Hn. exists n, n, n. rewrite !H. repeat split; lia.
Qed.

Lemma run_branch_listed (submission : Submission) (max_comments : Z)
  (cs : list Comment) :
  enters_quality_branch submission max_comments ->
  replace_more submission = Returns tt ->
  comments submission = Returns cs ->
  is_unanswered_enhanced submission max_comments no_calls =
  (Returns (scan_comments max_comments (slice_to (max_comments + 2) cs) 0),
   {| reads := 3; fetches := 2 |}).
Proof.
  intros He Hr Hc. rewrite (run_branch _ _ He).
  unfold try_except, bind, fetch, ret. simpl. now rewrite Hr, Hc.
Qed.

Lemma run_branch_raises (submission : Submission) (max_comments : Z) :
  enters_quality_branch submission max_comments ->
  replace_more submission = Raises \/ comments submission = Raises ->
  answer submission max_comments = Returns true.
Proof.
  intros He Hr. unfold answer. rewrite (run_branch _ _ He).
  unfold try_except, bind, fetch, ret. simpl.
  destruct Hr as [Hr | Hr]; rewrite Hr; [reflexivity|].
  now destruct (replace_more submission).
Qed.

(** C2, as the code has it. Let the comment count read as [nc].
    [nc = 0]: unanswered, no comment request. A non-zero
    [nc > 2 * max_comments]: answered, no comment request.
    [max_comments < nc <= 2 * max_comments]: answered.
    [0 < nc <= max_comments], comments delivered: the first
    [max_comments + 2] of them are examined and the post is answered
    exactly when more than [max_comments / 2] of them count as
    meaningful, that is, have a non-empty body that does not start with
    a deletion marker and that [is_meaningful_comment] accepts. *)
Theorem unanswered_decision_table
  (submission : Submission) (max_comments nc : Z) :
  reads_as submission nc ->
  (nc = 0 ->
   answer submission max_comments = Returns true
   /\ comment_requests submission max_comments = 0%nat)
  /\ (nc <> 0 -> nc > 2 * max_comments ->
      answer submission max_comments = Returns false
      /\ comment_requests submission max_comments = 0%nat)
  /\ (max_comments < nc <= 2 * max_comments ->
      answer submission max_comments = Returns false)
  /\ (0 < nc <= max_comments ->
      forall cs,
        replace_more submission = Returns tt ->
        comments submission = Returns cs ->
        answer submission max_comments =
        Returns (negb (max_comments / 2
                       <? meaningful_total (slice_to (max_comments + 2) cs)))).
Proof.
  intros H. unfold answer, comment_requests.
  split; [|split; [|split]].
  - intros ->. now rewrite (run_zero _ _ (H 0%nat)).
  - intros Hnz Hgt.
    rewrite (run_many _ max_comments nc nc (H 0%nat) Hnz (H 1%nat));
      [split; reflexivity | lia].
  - intros Hb.
    assert (Hnz : nc <> 0) by lia.
    assert (Hle : nc <= max_comments * 2) by lia.
    assert (Hlt : max_comments < nc) by lia.
    now rewrite (run_between _ max_comments nc nc nc
                   (H 0%nat) Hnz (H 1%nat) Hle (H 2%nat) Hlt).
  - intros Hb cs Hr Hc.
    rewrite (run_branch_listed _ _ cs (steady_enters _ _ _ H Hb) Hr Hc).
    simpl fst. f_equal. rewrite scan_comments_total; [reflexivity|].
    apply Z.div_pos; lia.
Qed.

Lemma steady_reads (n : Z) (e : outcome unit) (l : outcome (list Comment)) :
  reads_as (steady_post n e l) n.
Proof. intros i. reflexivity. Qed.

(** The table at threshold 5: no comments, 11 comments, 7 comments, and
    2 comments of which one is a bare "thanks" and one the Moz
    recommendation. *)
Lemma unanswered_decision_table_witness :
  answer (steady_post 0 Raises Raises) 5 = Returns true
  /\ answer (steady_post 11 Raises Raises) 5 = Returns false
  /\ answer (steady_post 7 Raises Raises) 5 = Returns false
  /\ answer (steady_post 2 (Returns tt)
               (Returns [text_comment "thanks"; text_comment moz_comment])) 5
     = Returns true.
Proof.
  pose proof (unanswered_decision_table (steady_post 0 Raises Raises) 5 0
                (steady_reads _ _ _)) as (T0 & _).
  pose proof (unanswered_decision_table (steady_post 11 Raises Raises) 5 11
                (steady_reads _ _ _)) as (_ & T1 & _).
  pose proof (unanswered_decision_table (steady_post 7 Raises Raises) 5 7
                (steady_reads _ _ _)) as (_ & _ & T2 & _).
  pose proof (unanswered_decision_table
                (steady_post 2 (Returns tt)
                   (Returns [text_comment "thanks"; text_comment moz_comment]))
                5 2 (steady_reads _ _ _)) as (_ & _ & _ & T3).
  split; [apply T0; reflexivity|].
  split; [apply T1; lia|].
  split; [apply T2; lia|].
  apply (T3 ltac:(lia) _ eq_refl eq_refl).
Defined.

(** C2 as stated fails twice. With [is_meaningful_comment] alone as the
    test of "meaningful", a post with one comment, a recommendation that
    opens with "[removed]", is unanswered at threshold 1 although one
    comment, more than 1/2 = 0, passes the filter. And at threshold -1 a
    post without comments has more than 2 * -1 comments and is
    unanswered. *)
Lemma decision_table_counterexample :
  ~ (forall submission max_comments nc cs,
        reads_as submission nc -> 0 < nc <= max_comments ->
        replace_more submission = Returns tt ->
        comments submission = Returns cs ->
        answer submission max_comments =
        Returns (negb (max_comments / 2
                       <? quality_total (slice_to (max_comments + 2) cs))))
  /\ ~ (forall submission max_comments nc,
           reads_as submission nc -> nc > 2 * max_comments ->
           answer submission max_comments = Returns false).
Proof.
  split.
  - intros H.
    specialize (H (steady_post 1 (Returns tt) (Returns [marked_comment])) 1 1
                  [marked_comment] (steady_reads _ _ _) ltac:(lia)
                  eq_refl eq_refl).
    vm_compute in H. discriminate.
  - intros H.
    specialize (H (steady_post 0 Raises Raises) (-1) 0
                  (steady_reads _ _ _) ltac:(lia)).
    vm_compute in H. discriminate.
Qed.


(** When the handler's own read of the comment count raises, so does the
    classifier. *)
Remark handler_read_raises (submission : Submission) (max_comments : Z) :
  num_comments submission 0%nat = Raises ->
  num_comments submission 1%nat = Raises ->
  answer submission max_comments = Raises.
Proof.
  intros H0 H1. unfold answer, is_unanswered_enhanced, try_except, bind,
    get_num_comments, ret. simpl. rewrite H0. simpl. now rewrite H1.
Qed.


Lemma counts_marked (comment : Comment) (b : string) :
  body comment = Some b ->
  startswith_any deletion_markers (lower b) = true ->
  counts_as_meaningful comment = false.
Proof.
  intros Hb Hd. unfold counts_as_meaningful. rewrite Hb, Hd.
  now destruct (negb (String.eqb b "")).
Qed.

Lemma scan_comments_skip (max_comments : Z) (pre post : list Comment)
  (comment : Comment) (m : Z) :
  counts_as_meaningful comment = false ->
  scan_comments max_comments (pre ++ comment :: post) m =
  scan_comments max_comments (pre ++ post) m.
Proof.
  intros Hc. revert m. induction pre as [|x pre IH]; intros m; simpl.
  - now rewrite Hc.
  - rewrite !IH. reflexivity.
Qed.

(** C9. A fetched comment whose lowercased body starts with "[deleted]"
    or "[removed]" is not counted, whatever [is_meaningful_comment] says
    of its body: wherever it stands in the listing, the loop and the
    total are as if it were absent. *)
Theorem marked_comment_never_counted
  (max_comments : Z) (pre post : list Comment) (comment : Comment)
  (b : string) (m : Z) :
  body comment = Some b ->
  startswith_any deletion_markers (lower b) = true ->
  counts_as_meaningful comment = false
  /\ scan_comments max_comments (pre ++ comment :: post) m =
     scan_comments max_comments (pre ++ post) m
  /\ meaningful_total (pre ++ comment :: post) = meaningful_total (pre ++ post).
Proof.
  intros Hb Hd. pose proof (counts_marked comment b Hb Hd) as Hc.
  split; [exact Hc|]. split.
  - now apply scan_comments_skip.
  - unfold meaningful_total. rewrite !filter_app. simpl. now rewrite Hc.
Qed.

(** A recommendation that the quality filter accepts and that opens with
    "[removed]", between two other comments. *)
Lemma marked_comment_never_counted_witness :
  passes_quality_filter marked_comment = true
  /\ counts_as_meaningful marked_comment = false
  /\ scan_comments 1
       ([text_comment "thanks"] ++ marked_comment :: [text_comment moz_comment]) 0
     = scan_comments 1 ([text_comment "thanks"] ++ [text_comment moz_comment]) 0
  /\ meaningful_total
       ([text_comment "thanks"] ++ marked_comment :: [text_comment moz_comment])
     = meaningful_total ([text_comment "thanks"] ++ [text_comment moz_comment]).
Proof.
  split; [reflexivity|].
  apply (marked_comment_never_counted 1 [text_comment "thanks"]
           [text_comment moz_comment] marked_comment
           ("[removed] " ++ moz_comment) 0); reflexivity.
Defined.

(** ** The content length filter *)

Lemma ends_with_question_mark_spec (s : string) :
  endswith "?" s = true <-> ends_with_question_mark s.
Proof. apply endswith_spec. Qed.

Lemma content_length_rejects_spec (p : Post) (cfg : Settings) :
  content_length_rejects p cfg = true <->
  len (selftext p) < min_content_length cfg
  /\ ~ ends_with_question_mark (title p).
Proof.
  unfold content_length_rejects.
  assert (E : (if negb (String.eqb (selftext p) "") then len (selftext p) else 0)
              = len (selftext p)).
  { destruct (String.eqb (selftext p) "") eqn:E; [|reflexivity].
    apply String.eqb_eq in E. now rewrite E. }
  rewrite E, andb_true_iff, Z.ltb_lt, negb_true_iff,
    <- ends_with_question_mark_spec.
  now destruct (endswith "?" (title p)).
Qed.

(** C10. The content length filter turns a post away exactly when its
    body is shorter than the configured minimum and its title does not
    end with a question mark; the loop leaves a post at this filter only
    then, and a post whose title ends with a question mark gets past it
    whatever the length of its body. *)
Theorem content_length_filter (p : Post) (cfg : Settings) :
  (content_length_rejects p cfg = true <->
   len (selftext p) < min_content_length cfg
   /\ ~ ends_with_question_mark (title p))
  /\ (screen p cfg = too_short <->
      min_score cfg <= score p
      /\ len (selftext p) < min_content_length cfg
      /\ ~ ends_with_question_mark (title p))
  /\ (ends_with_question_mark (title p) ->
      content_length_rejects p cfg = false /\ screen p cfg <> too_short).
Proof.
  pose proof (content_length_rejects_spec p cfg) as R.
  assert (S : screen p cfg = too_short <->
              min_score cfg <= score p /\ content_length_rejects p cfg = true).
  { unfold screen. destruct (score p <? min_score cfg) eqn:Es.
    - apply Z.ltb_lt in Es. split; [discriminate | lia].
    - apply Z.ltb_ge in Es. destruct (content_length_rejects p cfg).
      + tauto.
      + split; [|intros [_ H]; discriminate].
        destruct (filter_promotional cfg && _); [discriminate|].
        destruct (question_only_mode cfg && _); [discriminate|].
        destruct (_ <? _)%float; discriminate. }
  split; [exact R|]. split; [rewrite S, R; tauto|].
  intros Hq.
  assert (Hf : content_length_rejects p cfg = false).
  { destruct (content_length_rejects p cfg); [|reflexivity].
    destruct R as [R _]. destruct (R eq_refl) as [_ Hn]. contradiction. }
  split; [exact Hf|]. intros Hs. apply S in Hs. destruct Hs as [_ Hs].
  congruence.
Qed.

(** With a minimum of 50 characters, an empty body passes under a title
    that ends with a question mark, and nine characters under a title
    that does not are turned away. *)
Lemma content_length_filter_witness :
  (content_length_rejects short_question default_settings = false
   /\ screen short_question default_settings <> too_short)
  /\ screen short_statement default_settings = too_short.
Proof.
  split.
  - apply (proj2 (proj2 (content_length_filter short_question default_settings))).
    exists "Best SEO course for beginners". reflexivity.
  - apply (proj1 (proj2 (content_length_filter short_statement default_settings))).
    split; [vm_compute; discriminate|]. split; [reflexivity|].
    intros H. apply ends_with_question_mark_spec in H. discriminate.
Defined.

Example screen_ex :
  screen short_question default_settings = relevant 1%float.
Proof. vm_compute. reflexivity. Qed.

(** * Further properties of the heuristics *)

(** ** Case and white space *)

Lemma lower_char_idem (c : ascii) : lower_char (lower_char c) = lower_char c.
Proof. destruct c as [[] [] [] [] [] [] [] []]; reflexivity. Qed.

Lemma is_space_lower_char (c : ascii) : is_space (lower_char c) = is_space c.
Proof. destruct c as [[] [] [] [] [] [] [] []]; reflexivity. Qed.

Lemma lower_idem (s : string) : lower (lower s) = lower s.
Proof.
  induction s as [|c s IH]; simpl; [reflexivity|].
  now rewrite lower_char_idem, IH.
Qed.

Lemma lower_length (s : string) : String.length (lower s) = String.length s.
Proof. induction s as [|c s IH]; simpl; [reflexivity | now rewrite IH]. Qed.

Lemma lower_empty_iff (s : string) : lower s = "" <-> s = "".
Proof. destruct s; simpl; split; intros H; try reflexivity; discriminate. Qed.

Lemma lstrip_lower (s : string) : lstrip (lower s) = lower (lstrip s).
Proof.
  induction s as [|c s IH]; simpl; [reflexivity|].
  rewrite is_space_lower_char. now destruct (is_space c).
Qed.

Lemma rstrip_lower (s : string) : rstrip (lower s) = lower (rstrip s).
Proof.
  induction s as [|c s IH]; simpl; [reflexivity|].
  rewrite IH, is_space_lower_char.
  destruct (rstrip s); simpl; [now destruct (is_space c) | reflexivity].
Qed.

Lemma strip_lower (s : string) : strip (lower s) = lower (strip s).
Proof. unfold strip. now rewrite lstrip_lower, rstrip_lower. Qed.

Lemma flush_length (cur cur' : string) (ws ws' : list string) :
  (cur = "" <-> cur' = "") -> List.length ws = List.length ws' ->
  List.length (flush cur ws) = List.length (flush cur' ws').
Proof.
  intros Hc Hw. destruct cur, cur'; simpl; try lia.
  - destruct Hc as [Hc _]. now specialize (Hc eq_refl).
  - destruct Hc as [_ Hc]. now specialize (Hc eq_refl).
Qed.

Lemma combined_text_lower (title content : string) :
  combined_text (lower title) (lower content) = combined_text title content.
Proof.
  unfold combined_text. rewrite !lower_app, !lower_idem. reflexivity.
Qed.

(** X1. The two detectors do not see case: lowercasing title and body
    changes neither the promotional match count nor either answer. *)
Theorem detectors_ignore_case (title content : string) :
  promo_score (lower title) (lower content) = promo_score title content
  /\ is_promotional_content (lower title) (lower content)
     = is_promotional_content title content
  /\ is_genuine_question (lower title) (lower content)
     = is_genuine_question title content.
Proof.
  unfold is_promotional_content, promo_score, is_genuine_question.
  now rewrite combined_text_lower.
Qed.

(** X2. The relevance score does not see case: lowercasing title, body
    and keyword leaves it unchanged. *)
Theorem relevance_ignores_case (title content keyword : string) :
  calculate_enhanced_relevance_score (lower title) (lower content)
    (lower keyword)
  = calculate_enhanced_relevance_score title content keyword.
Proof.
  unfold calculate_enhanced_relevance_score, score_before_penalty.
  rewrite !content_lower_eq, !lower_idem.
  unfold is_promotional_content, promo_score.
  now rewrite combined_text_lower.
Qed.

(** ** CommentQualityFilter, continued *)

Lemma low_quality_short :
  forall p, In p low_quality -> (String.length p < 15)%nat.
Proof.
  intros p Hp.
  assert (H : forallb (fun q => (String.length q <? 15)%nat) low_quality = true)
    by reflexivity.
  rewrite forallb_forall in H. now apply Nat.ltb_lt, H.
Qed.

Lemma low_quality_unreachable (comment_body : string) :
  15 <= len (strip comment_body) ->
  mem (strip (lower comment_body)) low_quality = false.
Proof.
  intros H. destruct (mem _ low_quality) eqn:E; [|reflexivity].
  apply mem_spec, low_quality_short in E.
  rewrite strip_lower, lower_length in E. unfold len in H. lia.
Qed.

(** X3. The low-quality phrase list never decides: every phrase in it is
    shorter than the 15 characters a body must have to reach the test,
    so the filter is the size-and-indicator test alone. *)
Theorem low_quality_list_never_decides (comment_body : string) :
  (15 <= len (strip comment_body) ->
   mem (strip (lower comment_body)) low_quality = false)
  /\ is_meaningful_comment comment_body
     = meaningful_by_size_and_content comment_body.
Proof.
  split; [apply low_quality_unreachable|].
  unfold is_meaningful_comment, meaningful_by_size_and_content.
  rewrite existsb_strip.
  destruct (String.eqb comment_body "") eqn:Eb.
  - apply String.eqb_eq in Eb. subst. reflexivity.
  - rewrite orb_false_l. destruct (len (strip comment_body) <? 15) eqn:El.
    + apply Z.ltb_lt in El.
      assert (E : (15 <=? len (strip comment_body)) = false)
        by (apply Z.leb_gt; lia).
      now rewrite E.
    + apply Z.ltb_ge in El. rewrite (low_quality_unreachable _ El).
      apply Z.leb_le in El. rewrite El, !Z.geb_leb. reflexivity.
Qed.

Lemma low_quality_list_never_decides_witness :
  mem (strip (lower "  Thank you so much, this is great!  ")) low_quality
  = false.
Proof.
  apply (proj1 (low_quality_list_never_decides
                  "  Thank you so much, this is great!  ")).
  vm_compute. discriminate.
Defined.

(** ** RelevanceScorer, continued *)

Lemma table_all_spec
  (P : bool -> bool -> bool -> nat -> bool -> bool -> float -> bool)
  (max_matches : nat) :
  table_all P max_matches = true ->
  forall in_title word_bonus in_body matches context promo,
    (matches <= max_matches)%nat ->
    P in_title word_bonus in_body matches context promo
      (score_table in_title word_bonus in_body matches context promo) = true.
Proof.
  intros H b1 b2 b3 n b4 b5 Hn. unfold table_all in H.
  assert (Hb : forall b : bool, In b [true; false])
    by (intros []; simpl; auto).
  rewrite forallb_forall in H. specialize (H b1 (Hb _)).
  rewrite forallb_forall in H. specialize (H b2 (Hb _)).
  rewrite forallb_forall in H. specialize (H b3 (Hb _)).
  rewrite forallb_forall in H. specialize (H n ltac:(apply in_seq; lia)).
  rewrite forallb_forall in H. specialize (H b4 (Hb _)).
  rewrite forallb_forall in H. exact (H b5 (Hb _)).
Qed.

(** The scorer's result as the table entry of the tests it makes. *)
Lemma score_features (title content keyword : string) :
  exists matches context,
    (matches <= 32)%nat
    /\ (str_in "seo" (lower keyword) = false ->
        str_in "course" (lower keyword) = false -> matches = 0%nat)
    /\ calculate_enhanced_relevance_score title content keyword =
       score_table
         (str_in (lower keyword) (lower title))
         (existsb (fun word => str_in (lower keyword) word
                               || str_in word (lower keyword))
            (split (lower title)))
         (str_in (lower keyword) (lower content))
         matches context
         (is_promotional_content title content).
Proof.
  unfold calculate_enhanced_relevance_score, score_before_penalty.
  rewrite content_lower_eq, context_loop_once.
  set (k := lower keyword). set (t := lower title). set (c := lower content).
  set (full := t ++ " " ++ c).
  set (n1 := if str_in "seo" k
             then List.length (filter (fun term => str_in term full) seo_related)
             else 0%nat).
  set (n2 := if str_in "course" k
             then List.length (filter (fun term => str_in term full) course_related)
             else 0%nat).
  exists (n2 + n1)%nat,
    (existsb (fun ctx => str_in ctx full) question_contexts).
  split; [|split].
  - assert (n1 <= 16)%nat.
    { subst n1. destruct (str_in "seo" k); [|lia].
      apply (filter_length_le _ seo_related). }
    assert (n2 <= 16)%nat.
    { subst n2. destruct (str_in "course" k); [|lia].
      apply (filter_length_le _ course_related). }
    lia.
  - intros E1 E2. subst n1 n2. now rewrite E1, E2.
  - unfold score_table. rewrite <- add_terms_add.
    subst n1 n2.
    destruct (str_in "seo" k), (str_in "course" k);
      rewrite ?term_loop_add_terms; reflexivity.
Qed.

Lemma not_occurs_false (p s : string) : ~ occurs p s -> str_in p s = false.
Proof.
  intros H. destruct (str_in p s) eqn:E; [|reflexivity].
  apply str_in_spec in E. contradiction.
Qed.

(** X5. A post that is not promotional and whose title contains the
    keyword, case aside, scores at least 0.5. *)
Theorem title_match_scores_half (title content keyword : string) :
  occurs (lower keyword) (lower title) ->
  is_promotional_content title content = false ->
  (0.5 <=? calculate_enhanced_relevance_score title content keyword)%float
  = true.
Proof.
  intros Ht Hp. apply str_in_spec in Ht.
  destruct (score_features title content keyword) as (n & ctx & Hn & _ & ->).
  rewrite Ht, Hp.
  apply (table_all_spec
           (fun it _ _ _ _ promo x => implb (it && negb promo) (0.5 <=? x)%float)
           32 ltac:(vm_compute; reflexivity) true _ _ n ctx false Hn).
Qed.

Lemma title_match_scores_half_witness :
  (0.5 <=? calculate_enhanced_relevance_score
             "Learning PYTHON fast" "" "python")%float = true.
Proof.
  apply title_match_scores_half; [|reflexivity].
  exists "learning ", " fast". reflexivity.
Defined.

(** X6. A post that mentions the keyword neither in its title nor in its
    body scores at most 0.2, the context bonus, unless the keyword
    contains "seo" or "course". *)
Theorem absent_keyword_scores_low (title content keyword : string) :
  ~ occurs (lower keyword) (lower title) ->
  ~ occurs (lower keyword) (lower content) ->
  ~ occurs "seo" (lower keyword) ->
  ~ occurs "course" (lower keyword) ->
  (calculate_enhanced_relevance_score title content keyword <=? 0.2)%float
  = true.
Proof.
  intros Ht Hc Hs Ho. apply not_occurs_false in Ht, Hc, Hs, Ho.
  destruct (score_features title content keyword) as (n & ctx & _ & H0 & ->).
  rewrite (H0 Hs Ho), Ht, Hc.
  apply (table_all_spec
           (fun it _ ib _ _ _ x => implb (negb it && negb ib) (x <=? 0.2)%float)
           0 ltac:(vm_compute; reflexivity) false _ false 0%nat ctx _ (le_n 0)).
Qed.

Lemma absent_keyword_scores_low_witness :
  (calculate_enhanced_relevance_score
     "Where to learn cooking?" "I am a beginner" "python" <=? 0.2)%float = true.
Proof.
  apply absent_keyword_scores_low;
    intros H; apply str_in_spec in H; discriminate.
Defined.

(** X7. A promotional post scores at most 0.36 unless the keyword
    contains "seo" or "course". *)
Theorem promotional_score_capped (title content keyword : string) :
  is_promotional_content title content = true ->
  ~ occurs "seo" (lower keyword) ->
  ~ occurs "course" (lower keyword) ->
  (calculate_enhanced_relevance_score title content keyword <=? 0.36)%float
  = true.
Proof.
  intros Hp Hs Ho. apply not_occurs_false in Hs, Ho.
  destruct (score_features title content keyword) as (n & ctx & _ & H0 & ->).
  rewrite (H0 Hs Ho), Hp.
  apply (table_all_spec
           (fun _ _ _ _ _ promo x => implb promo (x <=? 0.36)%float)
           0 ltac:(vm_compute; reflexivity) _ _ _ 0%nat ctx true (le_n 0)).
Qed.

Lemma promotional_score_capped_witness :
  (calculate_enhanced_relevance_score
     "Python sale" "python deal, where to learn" "python" <=? 0.36)%float
  = true.
Proof.
  apply promotional_score_capped; [reflexivity | |];
    intros H; apply str_in_spec in H; discriminate.
Defined.

(** X8. With an empty keyword every post that is not promotional scores
    at least 0.8: the empty string occurs in every title and body. *)
Theorem empty_keyword_scores_high (title content : string) :
  is_promotional_content title content = false ->
  (0.8 <=? calculate_enhanced_relevance_score title content "")%float = true.
Proof.
  intros Hp.
  destruct (score_features title content "") as (n & ctx & Hn & _ & ->).
  rewrite Hp.
  assert (E : forall s, str_in (lower "") s = true) by (now intros []).
  rewrite !E.
  apply (table_all_spec
           (fun it _ ib _ _ promo x =>
              implb (it && ib && negb promo) (0.8 <=? x)%float)
           32 ltac:(vm_compute; reflexivity) true _ true n ctx false Hn).
Qed.

Lemma empty_keyword_scores_high_witness :
  (0.8 <=? calculate_enhanced_relevance_score "" "" "")%float = true.
Proof. apply empty_keyword_scores_high. reflexivity. Defined.

(** *** Keywords of one word *)

Lemma has_space_lower (s : string) : has_space (lower s) = has_space s.
Proof.
  induction s as [|c s IH]; simpl; [reflexivity|].
  now rewrite is_space_lower_char, IH.
Qed.

Lemma prefix_before_space (k q a b : string) (c : ascii) :
  k ++ q = a ++ String c b -> is_space c = true -> has_space k = false ->
  exists r, a = k ++ r.
Proof.
  revert a. induction k as [|x k IH]; intros a E Hc Hk.
  - now exists a.
  - simpl in Hk. apply orb_false_iff in Hk. destruct Hk as [Hx Hk].
    destruct a as [|y a]; simpl in E; injection E as -> E.
    + congruence.
    + destruct (IH a E Hc Hk) as [r ->]. now exists r.
Qed.

Lemma occurs_across_space (k a b : string) (c : ascii) :
  k <> "" -> has_space k = false -> is_space c = true ->
  occurs k (a ++ String c b) -> occurs k a \/ occurs k b.
Proof.
  intros Hne Hk Hc [p [q E]]. revert p E.
  induction a as [|y a IH]; intros p E.
  - destruct p as [|x p]; simpl in E.
    + destruct k as [|x k]; [congruence|]. simpl in *. injection E as <- _.
      rewrite Hc in Hk. discriminate.
    + injection E as _ ->. right. now exists p, q.
  - destruct p as [|x p].
    + symmetry in E. change ("" ++ k ++ q) with (k ++ q) in E.
      destruct (prefix_before_space k q (String y a) b c E Hc Hk) as [r Hr].
      left. exists "", r. exact Hr.
    + simpl in E. injection E as <- E.
      destruct (IH p E) as [[p' [q' ->]] | H]; [left | now right].
      now exists (String y p'), q'.
Qed.

Lemma rev_string_app (s acc : string) :
  rev_string acc s = rev_string "" s ++ acc.
Proof.
  revert acc. induction s as [|c s IH]; intros acc; simpl; [reflexivity|].
  rewrite (IH (String c acc)), (IH (String c "")), app_assoc_s. reflexivity.
Qed.

Lemma in_flush (cur : string) (ws : list string) (w : string) :
  In w ws -> In w (flush cur ws).
Proof. destruct cur; simpl; auto. Qed.

Lemma in_flush_cur (cur : string) (ws : list string) :
  cur <> "" -> In (rev_string "" cur) (flush cur ws).
Proof. destruct cur; [congruence | simpl; auto]. Qed.

Lemma occurs_empty (k : string) : k <> "" -> ~ occurs k "".
Proof.
  intros Hne [[|x p] [q E]]; simpl in E; [|discriminate].
  destruct k; [congruence | discriminate].
Qed.

Lemma split_from_word (k s cur : string) :
  k <> "" -> has_space k = false ->
  occurs k (rev_string "" cur ++ s) ->
  exists w, In w (split_from cur s) /\ occurs k w.
Proof.
  intros Hne Hk. revert cur. induction s as [|c s IH]; intros cur H.
  - rewrite app_empty_r in H. simpl. exists (rev_string "" cur).
    split; [|exact H]. apply in_flush_cur. intros ->.
    now apply (occurs_empty k Hne).
  - simpl. destruct (is_space c) eqn:Hc.
    + destruct (occurs_across_space k _ s c Hne Hk Hc H) as [H1 | H1].
      * exists (rev_string "" cur). split; [|exact H1].
        apply in_flush_cur. intros ->. now apply (occurs_empty k Hne).
      * destruct (IH "" H1) as [w [Hw Ho]]. exists w.
        split; [now apply in_flush | exact Ho].
    + apply IH. simpl. rewrite (rev_string_app cur), app_assoc_s. exact H.
Qed.

Lemma keyword_in_some_word (k t : string) :
  k <> "" -> has_space k = false -> str_in k t = true ->
  existsb (fun word => str_in k word || str_in word k) (split t) = true.
Proof.
  intros Hne Hk H. apply str_in_spec in H.
  destruct (split_from_word k t "" Hne Hk H) as [w [Hw Ho]].
  apply existsb_exists. exists w. split; [exact Hw|].
  apply str_in_spec in Ho. now rewrite Ho.
Qed.

(** X9. For a keyword of one word (not empty, no white space) the title
    word bonus comes with every title match: a post that is not
    promotional and whose title contains the keyword scores at least
    0.7. *)
Theorem one_word_keyword_scores_bonus (title content keyword : string) :
  keyword <> "" -> has_space keyword = false ->
  occurs (lower keyword) (lower title) ->
  is_promotional_content title content = false ->
  (0.7 <=? calculate_enhanced_relevance_score title content keyword)%float
  = true.
Proof.
  intros Hne Hk Ht Hp. apply str_in_spec in Ht.
  assert (Hne' : lower keyword <> "") by (now rewrite lower_empty_iff).
  assert (Hk' : has_space (lower keyword) = false)
    by (now rewrite has_space_lower).
  destruct (score_features title content keyword) as (n & ctx & Hn & _ & ->).
  rewrite (keyword_in_some_word _ _ Hne' Hk' Ht), Ht, Hp.
  apply (table_all_spec
           (fun it wb _ _ _ promo x =>
              implb (it && wb && negb promo) (0.7 <=? x)%float)
           32 ltac:(vm_compute; reflexivity) true true _ n ctx false Hn).
Qed.

Lemma one_word_keyword_scores_bonus_witness :
  (0.7 <=? calculate_enhanced_relevance_score
             "Stuck with my Python3 script" "" "python")%float = true.
Proof.
  apply one_word_keyword_scores_bonus;
    [discriminate | reflexivity | | reflexivity].
  exists "stuck with my ", "3 script". reflexivity.
Defined.

(** For a keyword of two words the bonus can be missing. *)
Remark two_word_keyword_ex :
  calculate_enhanced_relevance_score "myseo courses" "" "seo course"
  = 0.5%float.
Proof. vm_compute. reflexivity. Qed.

(** ** The filters, continued *)

(** X10. With the relevance threshold at 0, the lowest setting, the
    relevance test turns no post away. *)
Theorem zero_threshold_keeps_all (p : Post) (cfg : Settings) :
  relevance_threshold cfg = 0%float ->
  screen p cfg <> irrelevant.
Proof.
  intros Hz. unfold screen. rewrite Hz.
  destruct (score p <? min_score cfg); [discriminate|].
  destruct (content_length_rejects p cfg); [discriminate|].
  destruct (filter_promotional cfg && _); [discriminate|].
  destruct (question_only_mode cfg && _); [discriminate|].
  destruct (score_features (title p) (selftext p) (keyword cfg))
    as (n & ctx & Hn & _ & ->).
  pose proof (table_all_spec
                (fun _ _ _ _ _ _ x => negb (x <? 0)%float)
                32 ltac:(vm_compute; reflexivity)
                (str_in (lower (keyword cfg)) (lower (title p)))
                (existsb (fun word => str_in (lower (keyword cfg)) word
                                      || str_in word (lower (keyword cfg)))
                   (split (lower (title p))))
                (str_in (lower (keyword cfg)) (lower (selftext p)))
                n ctx (is_promotional_content (title p) (selftext p)) Hn) as H.
  simpl in H. apply negb_true_iff in H. rewrite H. discriminate.
Qed.

Lemma zero_threshold_keeps_all_witness :
  screen off_topic_post lenient_settings <> irrelevant.
Proof. apply zero_threshold_keeps_all. reflexivity. Defined.

(** X11. A title that ends with a question mark makes a genuine
    question: the posts that the content length filter lets through for
    their title also pass the question filter. *)
Theorem question_mark_title_is_question (p : Post) (cfg : Settings) :
  ends_with_question_mark (title p) ->
  is_genuine_question (title p) (selftext p) = true
  /\ content_length_rejects p cfg = false
  /\ screen p cfg <> not_a_question.
Proof.
  intros Hq.
  assert (Hg : is_genuine_question (title p) (selftext p) = true).
  { unfold is_genuine_question. destruct Hq as [pre E].
    assert (H : str_in "?" (combined_text (title p) (selftext p)) = true).
    { apply str_in_spec. unfold combined_text. rewrite E.
      exists (lower pre), (lower (" " ++ selftext p)).
      rewrite !lower_app. now rewrite app_assoc_s. }
    cbn [question_words existsb]. now rewrite H. }
  assert (Hl : content_length_rejects p cfg = false).
  { unfold content_length_rejects.
    apply ends_with_question_mark_spec in Hq. rewrite Hq.
    apply andb_false_r. }
  split; [exact Hg|]. split; [exact Hl|].
  unfold screen. rewrite Hl, Hg.
  destruct (score p <? min_score cfg); [discriminate|].
  destruct (filter_promotional cfg && _); [discriminate|].
  rewrite andb_false_r.
  destruct (_ <? _)%float; discriminate.
Qed.

Lemma question_mark_title_is_question_witness :
  is_genuine_question (title short_question) (selftext short_question) = true
  /\ content_length_rejects short_question default_settings = false
  /\ screen short_question default_settings <> not_a_question.
Proof.
  apply question_mark_title_is_question.
  exists "Best SEO course for beginners". reflexivity.
Defined.

(** ** UnansweredClassifier, continued *)

(** X12. The classifier raises only when a read of the comment count
    fails and the read of the handler fails as well; in particular it
    never raises on a post whose count can be read. *)
Theorem raises_only_on_two_failed_reads
  (submission : Submission) (max_comments : Z) :
  answer submission max_comments = Raises <->
  exists k, raises_at_outer_level submission max_comments k
            /\ num_comments submission (S k) = Raises.
Proof.
  unfold answer, is_unanswered_enhanced, try_except, bind, get_num_comments,
    fetch, ret. cbn [reads fetches no_calls]. split.
  - destruct (num_comments submission 0%nat) as [n0|] eqn:H0.
    + destruct (n0 =? 0) eqn:E0; [cbn; discriminate|]. apply Z.eqb_neq in E0.
      cbn [reads fetches].
      destruct (num_comments submission 1%nat) as [n1|] eqn:H1.
      * destruct (n1 >? max_comments * 2) eqn:E1; [cbn; discriminate|].
        rewrite Z.gtb_ltb in E1. apply Z.ltb_ge in E1.
        cbn [reads fetches].
        destruct (num_comments submission 2%nat) as [n2|] eqn:H2.
        -- destruct (n2 <=? max_comments); [|cbn; discriminate].
           destruct (replace_more submission); [|cbn; discriminate].
           destruct (comments submission); cbn; discriminate.
        -- cbn [reads fetches].
           destruct (num_comments submission 3%nat) eqn:H3;
             [cbn; discriminate|].
           intros _. exists 2%nat. simpl. split; [|exact H3].
           now exists n0, n1.
      * cbn [reads fetches].
        destruct (num_comments submission 2%nat) eqn:H2; [cbn; discriminate|].
        intros _. exists 1%nat. simpl. split; [|exact H2]. now exists n0.
    + cbn [reads fetches].
      destruct (num_comments submission 1%nat) eqn:H1; [cbn; discriminate|].
      intros _. now exists 0%nat.
  - intros [[|[|[|k]]] [Hk Hn]]; simpl in Hk; simpl.
    + rewrite Hk. simpl. now rewrite Hn.
    + destruct Hk as (n0 & H0 & Hn0 & H1).
      rewrite H0. apply Z.eqb_neq in Hn0. rewrite Hn0. simpl.
      rewrite H1. simpl. now rewrite Hn.
    + destruct Hk as (n0 & n1 & H0 & Hn0 & H1 & Hn1 & H2).
      rewrite H0. apply Z.eqb_neq in Hn0. rewrite Hn0. simpl.
      rewrite H1.
      assert (E1 : (n1 >? max_comments * 2) = false)
        by (rewrite Z.gtb_ltb; apply Z.ltb_ge; lia).
      rewrite E1. simpl. rewrite H2. simpl. now rewrite Hn.
    + contradiction.
Qed.

Lemma raises_only_on_two_failed_reads_witness :
  answer broken_post 5 = Raises.
Proof.
  apply (proj2 (raises_only_on_two_failed_reads broken_post 5)).
  exists 0%nat. split; reflexivity.
Defined.

(** X13. At threshold 0 a post is unanswered exactly when it has no
    comments, and its comments are never requested. *)
Theorem zero_threshold_unanswered (submission : Submission) (nc : Z) :
  reads_as submission nc -> 0 <= nc ->
  answer submission 0 = Returns (nc =? 0)
  /\ comment_requests submission 0 = 0%nat.
Proof.
  intros H Hnc. unfold answer, comment_requests.
  destruct (Z.eq_dec nc 0) as [-> | Hnz].
  - now rewrite (run_zero _ _ (H 0%nat)).
  - rewrite (run_many _ 0 nc nc (H 0%nat) Hnz (H 1%nat)) by lia.
    apply Z.eqb_neq in Hnz. now rewrite Hnz.
Qed.

Lemma zero_threshold_unanswered_witness :
  answer (steady_post 1 (Returns tt) (Returns [])) 0 = Returns false
  /\ comment_requests (steady_post 1 (Returns tt) (Returns [])) 0 = 0%nat.
Proof.
  apply (zero_threshold_unanswered _ 1); [apply steady_reads | lia].
Defined.

Lemma slice_to_all {A} (stop : Z) (l : list A) :
  Z.of_nat (List.length l) <= stop -> slice_to stop l = l.
Proof.
  intros H. unfold slice_to.
  assert (E : (0 <=? stop) = true) by (apply Z.leb_le; lia).
  rewrite E. apply firstn_all2. lia.
Qed.

(** X14. Raising the threshold never turns an unanswered post into an
    answered one, for a post whose comment count can be read and whose
    listing is no longer than that count. *)
Theorem unanswered_stays_unanswered
  (submission : Submission) (nc max_comments max_comments' : Z) :
  reads_as submission nc ->
  (forall cs, comments submission = Returns cs ->
              Z.of_nat (List.length cs) <= nc) ->
  max_comments <= max_comments' ->
  answer submission max_comments = Returns true ->
  answer submission max_comments' = Returns true.
Proof.
  intros H Hlen Hle Ha. unfold answer in *.
  destruct (Z.eq_dec nc 0) as [-> | Hnz].
  { now rewrite (run_zero _ _ (H 0%nat)). }
  destruct (Z_gt_le_dec nc (max_comments * 2)) as [Hgt | Hle2].
  { rewrite (run_many _ max_comments nc nc (H 0%nat) Hnz (H 1%nat) Hgt) in Ha.
    discriminate. }
  destruct (Z_lt_le_dec max_comments nc) as [Hlt | Hle1].
  { rewrite (run_between _ max_comments nc nc nc
               (H 0%nat) Hnz (H 1%nat) Hle2 (H 2%nat) Hlt) in Ha.
    discriminate. }
  assert (He : enters_quality_branch submission max_comments).
  { exists nc, nc, nc. rewrite !H. repeat split; assumption. }
  assert (He' : enters_quality_branch submission max_comments').
  { exists nc, nc, nc. rewrite !H. repeat split; try assumption; lia. }
  destruct (replace_more submission) as [[]|] eqn:Hr;
    [|apply run_branch_raises; auto].
  destruct (comments submission) as [cs|] eqn:Hc;
    [|apply run_branch_raises; auto].
  specialize (Hlen cs eq_refl).
  rewrite (run_branch_listed _ _ cs He Hr Hc) in Ha.
  rewrite (run_branch_listed _ _ cs He' Hr Hc).
  simpl fst in *. f_equal. injection Ha as Ha.
  rewrite slice_to_all in * by lia.
  rewrite scan_comments_total in * by (apply Z.div_pos; lia).
  apply negb_true_iff, Z.ltb_ge in Ha. apply negb_true_iff, Z.ltb_ge.
  assert (max_comments / 2 <= max_comments' / 2)
    by (apply Z.div_le_mono; lia).
  lia.
Qed.

Lemma unanswered_stays_unanswered_witness :
  answer (steady_post 2 (Returns tt)
            (Returns [text_comment "thanks"; text_comment moz_comment])) 9
  = Returns true.
Proof.
  apply (unanswered_stays_unanswered _ 2 2 9).
  - apply steady_reads.
  - intros cs E. injection E as <-. simpl. lia.
  - lia.
  - reflexivity.
Defined.

(** Without the bound on the listing the answer can turn: five comments
    are listed for a count of 2, and the fifth is looked at only at
    threshold 3. *)
Remark longer_listing_ex :
  let cs := [text_comment moz_comment; text_comment "ok"; text_comment "ok";
             text_comment "ok"; text_comment moz_comment] in
  answer (steady_post 2 (Returns tt) (Returns cs)) 2 = Returns true
  /\ answer (steady_post 2 (Returns tt) (Returns cs)) 3 = Returns false.
Proof. split; reflexivity. Qed.

(** ** The search loop *)

Section Dict.

Context {A : Type}.

Implicit Types (d : list (string * A)) (k : string) (v : A).

Lemma dict_set_keys k v d :
  map fst (dict_set k v d) =
  if mem k (map fst d) then map fst d else (map fst d ++ [k])%list.
Proof.
  induction d as [|[k' v'] d IH]; simpl; [reflexivity|].
  rewrite (String.eqb_sym k k').
  destruct (String.eqb k' k) eqn:E; simpl; [reflexivity|].
  rewrite IH. unfold mem. now destruct (existsb (String.eqb k) (map fst d)).
Qed.

Lemma dict_set_in k v d k' v' :
  NoDup (map fst d) ->
  (In (k', v') (dict_set k v d) <->
   (k' = k /\ v' = v) \/ (k' <> k /\ In (k', v') d)).
Proof.
  induction d as [|[k0 v0] d IH]; intros Hnd; simpl.
  - split.
    + intros [E | []]. injection E as <- <-. now left.
    + intros [[-> ->] | [_ []]]. now left.
  - inversion Hnd as [|? ? Hk0 Hd]; subst.
    destruct (String.eqb k0 k) eqn:E.
    + apply String.eqb_eq in E. subst k0. simpl. split.
      * intros [E | Hin].
        -- injection E as <- <-. now left.
        -- right. split; [|now right]. intros ->. apply Hk0.
           apply in_map_iff. now exists (k, v').
      * intros [[-> ->] | [Hne [E | Hin]]].
        -- now left.
        -- injection E as -> _. congruence.
        -- now right.
    + apply String.eqb_neq in E. simpl. rewrite (IH Hd). split.
      * intros [Eq | [[-> ->] | [Hne Hin]]].
        -- injection Eq as <- <-. right. split; [exact E | now left].
        -- now left.
        -- right. split; [exact Hne | now right].
      * intros [[-> ->] | [Hne [Eq | Hin]]].
        -- right. now left.
        -- now left.
        -- right. right. now split.
Qed.

Lemma dict_set_nodup k v d :
  NoDup (map fst d) -> NoDup (map fst (dict_set k v d)).
Proof.
  intros Hnd. rewrite dict_set_keys.
  destruct (mem k (map fst d)) eqn:E; [assumption|].
  apply NoDup_app; [assumption | repeat constructor; intros [] |].
  intros x Hx [<- | []]. apply mem_spec in Hx. congruence.
Qed.

End Dict.

Lemma id_dict_snoc (seen : list Candidate) (x : Candidate) :
  id_dict (seen ++ [x]) = dict_set (id x) x (id_dict seen).
Proof. unfold id_dict. now rewrite fold_left_app. Qed.

Lemma last_with_id_snoc (c x : Candidate) (seen : list Candidate) :
  last_with_id c seen -> id c <> id x -> last_with_id c (seen ++ [x]).
Proof.
  intros (before & after & -> & Hn) Hne.
  exists before, (after ++ [x])%list. split.
  - now rewrite <- app_assoc.
  - rewrite map_app, in_app_iff. simpl. intros [H | [H | []]]; auto.
Qed.

Lemma id_dict_inv (seen : list Candidate) :
  NoDup (map fst (id_dict seen))
  /\ (forall k, In k (map fst (id_dict seen)) <-> In k (map id seen))
  /\ (forall k v, In (k, v) (id_dict seen) ->
                  id v = k /\ last_with_id v seen).
Proof.
  induction seen as [|x seen IH] using rev_ind.
  - simpl. split; [constructor|]. split; [tauto | intros k v []].
  - destruct IH as (Hnd & Hkeys & Hvals). rewrite id_dict_snoc.
    split; [now apply dict_set_nodup|]. split.
    + intros k. rewrite dict_set_keys, map_app, in_app_iff. simpl.
      destruct (mem (id x) (map fst (id_dict seen))) eqn:E.
      * rewrite Hkeys. apply mem_spec, Hkeys in E.
        split; [tauto|]. intros [H | [<- | []]]; assumption.
      * rewrite in_app_iff, Hkeys. simpl. tauto.
    + intros k v Hin. apply (dict_set_in _ _ _ _ _ Hnd) in Hin.
      destruct Hin as [[-> ->] | [Hne Hin]].
      * split; [reflexivity|]. exists seen, []. split; [reflexivity | intros []].
      * destruct (Hvals k v Hin) as [<- Hl]. split; [reflexivity|].
        now apply last_with_id_snoc.
Qed.

(** X15. Removing duplicates: no two of the unique submissions share an
    id, every id that was found is kept, and the submission kept for an
    id is the last one found with it. *)
Theorem unique_submissions_spec (all : list Candidate) :
  NoDup (map id (unique_submissions all))
  /\ (forall k, In k (map id (unique_submissions all)) <-> In k (map id all))
  /\ (forall c, In c (unique_submissions all) -> last_with_id c all).
Proof.
  destruct (id_dict_inv all) as (Hnd & Hkeys & Hvals).
  fold (id_dict all) in *. unfold unique_submissions. fold (id_dict all).
  assert (E : map id (map snd (id_dict all)) = map fst (id_dict all)).
  { rewrite map_map. apply map_ext_in. intros [k v] Hin. simpl.
    now destruct (Hvals k v Hin). }
  rewrite E. split; [exact Hnd|]. split; [exact Hkeys|].
  intros c Hc. apply in_map_iff in Hc. destruct Hc as [[k v] [<- Hin]].
  now destruct (Hvals k v Hin).
Qed.

Remark unique_submissions_ex :
  let a := {| id := "a1"; post := short_question |} in
  let b := {| id := "b2"; post := short_statement |} in
  let a' := {| id := "a1"; post := off_topic_post |} in
  unique_submissions [a; b; a'] = [a'; b].
Proof. reflexivity. Qed.

Lemma readable_run (sub : Submission) (max_comments n : Z) :
  reads_as sub n ->
  exists b calls,
    is_unanswered_enhanced sub max_comments no_calls = (Returns b, calls).
Proof.
  intros H.
  destruct (Z.eq_dec n 0) as [-> | Hnz].
  { rewrite (run_zero _ _ (H 0%nat)). eauto. }
  destruct (Z_gt_le_dec n (max_comments * 2)) as [Hgt | Hle2].
  { rewrite (run_many _ max_comments n n (H 0%nat) Hnz (H 1%nat) Hgt). eauto. }
  destruct (Z_lt_le_dec max_comments n) as [Hlt | Hle1].
  { rewrite (run_between _ max_comments n n n
               (H 0%nat) Hnz (H 1%nat) Hle2 (H 2%nat) Hlt). eauto. }
  rewrite run_branch
    by (exists n, n, n; rewrite !H; repeat split; assumption).
  unfold try_except, bind, fetch, ret. simpl.
  destruct (replace_more sub); [|eauto].
  destruct (comments sub); eauto.
Qed.

(** One turn of the loop on a candidate whose count can be read. *)
Lemma collect_step (cfg : Settings) (limit : Z) (c : Candidate)
  (rest : list Candidate) (found : Z) (qs : list Hit) :
  readable c -> found < limit ->
  if accepted cfg c
  then exists h,
      hit_candidate h = c
      /\ screen (post c) cfg = relevant (hit_relevance h)
      /\ reads_as (thread (post c)) (hit_comments h)
      /\ collect cfg limit (c :: rest) found qs
         = collect cfg limit rest (found + 1) (qs ++ [h])%list
  else collect cfg limit (c :: rest) found qs
       = collect cfg limit rest found qs.
Proof.
  intros [n Hn] Hlt. unfold accepted, answer. cbn [collect].
  assert (E : (found >=? limit) = false)
    by (rewrite Z.geb_leb; apply Z.leb_gt; lia).
  rewrite E.
  destruct (screen (post c) cfg) as [| | | | |r]; try reflexivity.
  destruct (readable_run _ (max_comments_threshold cfg) n Hn)
    as (b & calls & Hrun).
  rewrite Hrun. cbn [fst]. destruct b; [|reflexivity].
  rewrite (Hn (reads calls)).
  now exists {| hit_candidate := c; hit_relevance := r; hit_comments := n |}.
Qed.

Lemma collect_readable_gen (cfg : Settings) (limit : Z)
  (subs : list Candidate) :
  (forall c, In c subs -> readable c) ->
  forall found qs,
  exists hs,
    collect cfg limit subs found qs = Returns (qs ++ hs)%list
    /\ map hit_candidate hs
       = firstn (Z.to_nat (limit - found)) (filter (accepted cfg) subs)
    /\ (forall h, In h hs ->
          screen (post (hit_candidate h)) cfg = relevant (hit_relevance h)
          /\ reads_as (thread (post (hit_candidate h))) (hit_comments h)).
Proof.
  induction subs as [|c rest IH]; intros Hr found qs.
  - exists []. rewrite app_nil_r, firstn_nil. simpl. now repeat split.
  - destruct (Z_lt_le_dec found limit) as [Hlt | Hge].
    + pose proof (collect_step cfg limit c rest found qs
                    (Hr c (or_introl eq_refl)) Hlt) as Hs.
      assert (Hr' : forall x, In x rest -> readable x)
        by (intros x Hx; apply Hr; now right).
      cbn [filter]. destruct (accepted cfg c).
      * destruct Hs as (h & Hc & Hscr & Hcnt & ->).
        destruct (IH Hr' (found + 1) (qs ++ [h])%list) as (hs & -> & Hm & Hall).
        exists (h :: hs). rewrite <- app_assoc. split; [reflexivity|]. split.
        -- replace (Z.to_nat (limit - found))
             with (S (Z.to_nat (limit - (found + 1)))) by lia.
           simpl. now rewrite Hc, Hm.
        -- intros x [<- | Hx]; [rewrite Hc; now split | now apply Hall].
      * rewrite Hs. apply (IH Hr').
    + exists []. cbn [collect].
      assert (E : (found >=? limit) = true)
        by (rewrite Z.geb_leb; apply Z.leb_le; lia).
      rewrite E, app_nil_r.
      replace (Z.to_nat (limit - found)) with 0%nat by lia.
      simpl. now repeat split.
Qed.

(** X16. When the comment count of every candidate can be read, the loop
    returns the first [limit] candidates that pass every filter and are
    classified unanswered, in the order of the candidates, each with its
    relevance score and its comment count. *)
Theorem collect_first_accepted (cfg : Settings) (limit : Z)
  (subs : list Candidate) :
  (forall c, In c subs -> readable c) ->
  exists hits,
    collect cfg limit subs 0 [] = Returns hits
    /\ map hit_candidate hits
       = firstn (Z.to_nat limit) (filter (accepted cfg) subs)
    /\ (forall h, In h hits ->
          screen (post (hit_candidate h)) cfg = relevant (hit_relevance h)
          /\ reads_as (thread (post (hit_candidate h))) (hit_comments h)).
Proof.
  intros Hr.
  destruct (collect_readable_gen cfg limit subs Hr 0 []) as (hs & E & Hm & Hall).
  exists hs. rewrite Z.sub_0_r in Hm. simpl in E.
  split; [exact E|]. split; [exact Hm | exact Hall].
Qed.

Lemma good_readable : readable good_candidate.
Proof. exists 0. intros i. reflexivity. Qed.

Lemma short_readable : readable short_candidate.
Proof. exists 0. intros i. reflexivity. Qed.

Lemma collect_first_accepted_witness :
  exists hits,
    collect default_settings 1
      [short_candidate; good_candidate; good_candidate] 0 [] = Returns hits
    /\ map hit_candidate hits = [good_candidate].
Proof.
  destruct (collect_first_accepted default_settings 1
              [short_candidate; good_candidate; good_candidate])
    as (hits & E & Hm & _).
  - intros c [<- | [<- | [<- | []]]];
      [apply short_readable | apply good_readable | apply good_readable].
  - exists hits. split; [exact E|]. rewrite Hm. vm_compute. reflexivity.
Defined.

Lemma collect_sound_gen (cfg : Settings) (limit : Z) (subs : list Candidate) :
  forall found qs hits,
    collect cfg limit subs found qs = Returns hits ->
    exists hs,
      hits = (qs ++ hs)%list
      /\ Z.of_nat (List.length hs) <= Z.max 0 (limit - found)
      /\ (forall h, In h hs ->
            In (hit_candidate h) subs
            /\ accepted cfg (hit_candidate h) = true
            /\ screen (post (hit_candidate h)) cfg = relevant (hit_relevance h))
      /\ (NoDup (map id subs) ->
          NoDup (map (fun h => id (hit_candidate h)) hs)).
Proof.
  induction subs as [|c rest IH]; intros found qs hits H.
  - injection H as <-. exists []. rewrite app_nil_r. simpl.
    split; [reflexivity|]. split; [lia|]. split; [intros h []|].
    intros _. constructor.
  - cbn [collect] in H. destruct (found >=? limit) eqn:E.
    { injection H as <-. exists []. rewrite app_nil_r. simpl.
      split; [reflexivity|]. split; [lia|]. split; [intros h []|].
      intros _. constructor. }
    rewrite Z.geb_leb in E. apply Z.leb_gt in E.
    assert (Hskip : collect cfg limit rest found qs = Returns hits ->
                    exists hs,
                      hits = (qs ++ hs)%list
                      /\ Z.of_nat (List.length hs) <= Z.max 0 (limit - found)
                      /\ (forall h, In h hs ->
                            In (hit_candidate h) (c :: rest)
                            /\ accepted cfg (hit_candidate h) = true
                            /\ screen (post (hit_candidate h)) cfg
                               = relevant (hit_relevance h))
                      /\ (NoDup (map id (c :: rest)) ->
                          NoDup (map (fun h => id (hit_candidate h)) hs))).
    { intros H'. destruct (IH _ _ _ H') as (hs & -> & Hlen & Hall & Hnd).
      exists hs. split; [reflexivity|]. split; [exact Hlen|]. split.
      - intros h Hh. destruct (Hall h Hh) as (Hin & Ha & Hs).
        split; [now right | now split].
      - intros Hn. apply Hnd. now inversion Hn. }
    destruct (screen (post c) cfg) as [| | | | |r] eqn:Hs; try (now apply Hskip).
    destruct (is_unanswered_enhanced (thread (post c))
                (max_comments_threshold cfg) no_calls)
      as [[[|]|] calls] eqn:Hrun; [| now apply Hskip | discriminate].
    destruct (num_comments (thread (post c)) (reads calls)) as [n|];
      [|discriminate].
    destruct (IH _ _ _ H) as (hs & -> & Hlen & Hall & Hnd).
    set (h0 := {| hit_candidate := c; hit_relevance := r; hit_comments := n |}).
    exists (h0 :: hs). rewrite <- app_assoc. split; [reflexivity|].
    split; [simpl List.length; lia|]. split.
    + intros h [<- | Hh].
      * simpl. split; [now left|]. split; [|exact Hs].
        unfold accepted, answer. now rewrite Hs, Hrun.
      * destruct (Hall h Hh) as (Hin & Ha & Hs').
        split; [now right | now split].
    + intros Hn. inversion Hn as [|? ? Hc Hrest]; subst. simpl.
      constructor; [|now apply Hnd].
      intros Hin. apply in_map_iff in Hin. destruct Hin as (h & Eh & Hh).
      apply Hc. rewrite <- Eh. apply in_map. now apply (Hall h Hh).
Qed.

Lemma all_submissions_in (search : Search) (subreddit_name : option string)
  (kw : string) (limit : Z) (c : Candidate) :
  In c (all_submissions search subreddit_name kw limit) ->
  exists subreddit term results,
    In term [kw; kw ++ " help"]
    /\ search subreddit term (limit * 3) = Returns results
    /\ In c results.
Proof.
  unfold all_submissions. cbn [search_terms firstn fold_left].
  set (subreddit := match subreddit_name with
                    | Some name => if String.eqb name "" then "all" else name
                    | None => "all"
                    end).
  destruct (search subreddit kw (limit * 3)) as [r1|] eqn:E1;
    destruct (search subreddit (kw ++ " help") (limit * 3)) as [r2|] eqn:E2;
    simpl; rewrite ?in_app_iff; intros H.
  - destruct H as [H | H];
      [exists subreddit, kw, r1 | exists subreddit, (kw ++ " help"), r2];
      simpl; auto.
  - exists subreddit, kw, r1. simpl. auto.
  - exists subreddit, (kw ++ " help"), r2. simpl. auto.
  - contradiction.
Qed.

Lemma unique_submissions_in (all : list Candidate) (c : Candidate) :
  In c (unique_submissions all) -> In c all.
Proof.
  intros Hc. unfold unique_submissions in Hc. fold (id_dict all) in Hc.
  apply in_map_iff in Hc. destruct Hc as [[k v] [<- Hin]].
  destruct (id_dict_inv all) as (_ & _ & Hvals).
  destruct (Hvals k v Hin) as [_ (before & after & -> & _)].
  apply in_elt.
Qed.

Lemma unique_submissions_nodup (all : list Candidate) :
  NoDup (map id (unique_submissions all)).
Proof.
  destruct (id_dict_inv all) as (Hnd & _ & Hvals).
  unfold unique_submissions. fold (id_dict all).
  replace (map id (map snd (id_dict all))) with (map fst (id_dict all));
    [exact Hnd|].
  rewrite map_map. apply map_ext_in. intros [k v] Hin. simpl.
  now destruct (Hvals k v Hin).
Qed.

(** X17. Whatever the client does, the rows of a search are at most
    [limit] many, no two of them are for the same id, and each is for a
    post that one of the first two search terms found, that passed every
    filter with the relevance recorded in the row, and that was
    classified unanswered. *)
Theorem questions_sound (search : Search) (cfg : Settings)
  (subreddit_name : option string) (limit : Z) :
  let rows := questions_before_sort search cfg subreddit_name limit in
  Z.of_nat (List.length rows) <= Z.max 0 limit
  /\ NoDup (map (fun h => id (hit_candidate h)) rows)
  /\ (forall h, In h rows ->
        accepted cfg (hit_candidate h) = true
        /\ screen (post (hit_candidate h)) cfg = relevant (hit_relevance h)
        /\ exists subreddit term results,
             In term [keyword cfg; keyword cfg ++ " help"]
             /\ search subreddit term (limit * 3) = Returns results
             /\ In (hit_candidate h) results).
Proof.
  unfold questions_before_sort.
  set (all := all_submissions search subreddit_name (keyword cfg) limit).
  destruct (collect cfg limit (unique_submissions all) 0 []) as [hits|] eqn:E.
  - destruct (collect_sound_gen _ _ _ _ _ _ E) as (hs & -> & Hlen & Hall & Hnd).
    cbn zeta. simpl app. rewrite Z.sub_0_r in Hlen.
    split; [exact Hlen|]. split; [apply Hnd, unique_submissions_nodup|].
    intros h Hh. destruct (Hall h Hh) as (Hin & Ha & Hs).
    split; [exact Ha|]. split; [exact Hs|].
    apply (all_submissions_in search subreddit_name (keyword cfg) limit).
    now apply unique_submissions_in.
  - cbn zeta. simpl. split; [lia|]. split; [constructor | intros h []].
Qed.

Lemma collect_prefix (cfg : Settings) (limit : Z) (pre l : list Candidate) :
  (forall x, In x pre -> readable x) ->
  forall found qs,
    found + Z.of_nat (List.length (filter (accepted cfg) pre)) < limit ->
    exists hs,
      collect cfg limit (pre ++ l) found qs
      = collect cfg limit l
          (found + Z.of_nat (List.length (filter (accepted cfg) pre)))
          (qs ++ hs)%list.
Proof.
  induction pre as [|c pre IH]; intros Hr found qs Hlt.
  - exists []. simpl. now rewrite Z.add_0_r, app_nil_r.
  - assert (Hr' : forall x, In x pre -> readable x)
      by (intros x Hx; apply Hr; now right).
    cbn [filter] in *.
    pose proof (collect_step cfg limit c (pre ++ l) found qs
                  (Hr c (or_introl eq_refl))) as Hs.
    destruct (accepted cfg c).
    + simpl List.length in *.
      destruct Hs as (h & _ & _ & _ & Hs); [lia|].
      destruct (IH Hr' (found + 1) (qs ++ [h])%list ltac:(lia)) as (hs & E).
      exists (h :: hs). rewrite <- app_comm_cons, Hs, E, <- app_assoc.
      f_equal. lia.
    + destruct (IH Hr' found qs Hlt) as (hs & E).
      exists hs. rewrite <- app_comm_cons, Hs by lia. exact E.
Qed.

(** X18. One failing post empties the batch: when the loop reaches a
    post that passes the filters and whose unanswered check raises, the
    search returns no rows, whatever was found before it. *)
Theorem failing_post_empties_batch (search : Search) (cfg : Settings)
  (subreddit_name : option string) (limit : Z)
  (pre rest : list Candidate) (c : Candidate) (r : float) :
  unique_submissions
    (all_submissions search subreddit_name (keyword cfg) limit)
  = (pre ++ c :: rest)%list ->
  (forall x, In x pre -> readable x) ->
  Z.of_nat (List.length (filter (accepted cfg) pre)) < limit ->
  screen (post c) cfg = relevant r ->
  answer (thread (post c)) (max_comments_threshold cfg) = Raises ->
  questions_before_sort search cfg subreddit_name limit = [].
Proof.
  intros Eu Hr Hlt Hs Ha. unfold questions_before_sort. rewrite Eu.
  destruct (collect_prefix cfg limit pre (c :: rest) Hr 0 [] Hlt) as (hs & ->).
  cbn [collect].
  assert (E : (0 + Z.of_nat (List.length (filter (accepted cfg) pre))
               >=? limit) = false)
    by (rewrite Z.geb_leb; apply Z.leb_gt; lia).
  rewrite E, Hs. unfold answer in Ha.
  destruct (is_unanswered_enhanced (thread (post c))
              (max_comments_threshold cfg) no_calls) as [[b|] calls];
    [discriminate | reflexivity].
Qed.

Lemma failing_post_empties_batch_witness :
  questions_before_sort (sample_search [good_candidate; broken_candidate])
    default_settings None 25 = [].
Proof.
  apply (failing_post_empties_batch _ _ _ _ [good_candidate] []
           broken_candidate 1%float).
  - reflexivity.
  - intros x [<- | []]. apply good_readable.
  - vm_compute. reflexivity.
  - vm_compute. reflexivity.
  - reflexivity.
Defined.

(** Without the failing post the first one is returned. *)
Remark sample_search_ex :
  map hit_candidate
    (questions_before_sort (sample_search [good_candidate; short_candidate])
       default_settings None 25)
  = [good_candidate].
Proof. vm_compute. reflexivity. Qed.

(** ** The content cell *)

Lemma length_app_s (a b : string) :
  String.length (a ++ b) = (String.length a + String.length b)%nat.
Proof. induction a as [|c a IH]; simpl; [reflexivity | now rewrite IH]. Qed.

Lemma substring_prefix (n : nat) (s : string) :
  String.length (substring 0 n s) = Nat.min n (String.length s)
  /\ exists rest, s = substring 0 n s ++ rest.
Proof.
  revert s. induction n as [|n IH]; intros s.
  - destruct s; simpl; (split; [reflexivity | eexists; reflexivity]).
  - destruct s as [|c s]; simpl.
    + split; [reflexivity | now exists ""].
    + destruct (IH s) as [Hl [rest Hr]]. split; [now rewrite Hl|].
      exists rest. now rewrite <- Hr.
Qed.

(** X19. The content cell of a row is the body itself when the body has
    at most 400 characters; otherwise it is the first 400 characters of
    the body followed by three dots, 403 characters in all. *)
Theorem content_cell_spec (selftext : string) :
  (String.length (content_cell selftext) <= 403)%nat
  /\ (len selftext <= 400 -> content_cell selftext = selftext)
  /\ (400 < len selftext ->
      String.length (content_cell selftext) = 403%nat
      /\ exists head rest,
           String.length head = 400%nat
           /\ selftext = head ++ rest
           /\ content_cell selftext = head ++ "...").
Proof.
  unfold content_cell, len.
  destruct (substring_prefix 400 selftext) as [Hl [rest Hr]].
  destruct (Z.of_nat (String.length selftext) >? 400) eqn:E.
  - apply Z.gtb_gt in E.
    assert (Hh : String.length (substring 0 400 selftext) = 400%nat) by lia.
    assert (Hc : String.length (substring 0 400 selftext ++ "...") = 403%nat)
      by (rewrite length_app_s, Hh; reflexivity).
    split; [lia|]. split; [lia|]. intros _. split; [exact Hc|].
    exists (substring 0 400 selftext), rest. now repeat split.
  - rewrite Z.gtb_ltb in E. apply Z.ltb_ge in E.
    split; [lia|]. split; [reflexivity | lia].
Qed.

Lemma content_cell_spec_witness : content_cell "short body" = "short body".
Proof.
  apply (proj1 (proj2 (content_cell_spec "short body"))).
  vm_compute. discriminate.
Defined.

(** ** Comment requests *)

Lemma enters_requests (submission : Submission) (max_comments : Z) :
  enters_quality_branch submission max_comments ->
  comment_requests submission max_comments = 1%nat
  \/ comment_requests submission max_comments = 2%nat.
Proof.
  intros He. unfold comment_requests. rewrite (run_branch _ _ He).
  unfold try_except, bind, fetch, ret. simpl.
  destruct (replace_more submission); [|now left].
  destruct (comments submission); now right.
Qed.

Lemma enters_or_no_requests (submission : Submission) (max_comments : Z) :
  enters_quality_branch submission max_comments
  \/ comment_requests submission max_comments = 0%nat.
Proof.
  unfold comment_requests, is_unanswered_enhanced, try_except, bind,
    get_num_comments, fetch, ret. cbn [reads fetches no_calls].
  destruct (num_comments submission 0%nat) as [n0|] eqn:H0.
  - destruct (n0 =? 0) eqn:E0; [now right|]. apply Z.eqb_neq in E0.
    cbn [reads fetches].
    destruct (num_comments submission 1%nat) as [n1|] eqn:H1.
    + destruct (n1 >? max_comments * 2) eqn:E1; [now right|].
      rewrite Z.gtb_ltb in E1. apply Z.ltb_ge in E1.
      cbn [reads fetches].
      destruct (num_comments submission 2%nat) as [n2|] eqn:H2.
      * destruct (n2 <=? max_comments) eqn:E2; [|now right].
        apply Z.leb_le in E2. left. now exists n0, n1, n2.
      * right. cbn [reads fetches].
        now destruct (num_comments submission 3%nat).
    + right. cbn [reads fetches].
      now destruct (num_comments submission 2%nat).
  - right. cbn [reads fetches].
    now destruct (num_comments submission 1%nat).
Qed.

(** X20. The classifier asks the client for comments at most twice per
    post (the expansion and the listing), and only when three reads of
    the comment count succeed with a non-zero count that is at most the
    threshold and at most twice the threshold. *)
Theorem comments_requested_only_in_branch
  (submission : Submission) (max_comments : Z) :
  (comment_requests submission max_comments <= 2)%nat
  /\ (comment_requests submission max_comments <> 0%nat <->
      enters_quality_branch submission max_comments).
Proof.
  destruct (enters_or_no_requests submission max_comments) as [He | Hz].
  - destruct (enters_requests _ _ He) as [E | E]; rewrite E;
      (split; [lia|]); split; auto; discriminate.
  - split; [lia|]. split; [congruence|].
    intros He. destruct (enters_requests _ _ He); congruence.
Qed.

(** ** The filters and the penalty *)

(** X21. With the promotional filter on, no post that reaches the
    relevance test is promotional: the relevance of a post that passes
    the filters is the sum of its bonuses limited to 1.0, without the
    penalty. *)
Theorem filtered_posts_carry_no_penalty (p : Post) (cfg : Settings) (r : float) :
  filter_promotional cfg = true ->
  screen p cfg = relevant r ->
  is_promotional_content (title p) (selftext p) = false
  /\ r = py_min (additive_sum (title p) (selftext p) (keyword cfg)) 1%float.
Proof.
  intros Hf. unfold screen. rewrite Hf, andb_true_l.
  destruct (score p <? min_score cfg); [discriminate|].
  destruct (content_length_rejects p cfg); [discriminate|].
  destruct (is_promotional_content (title p) (selftext p)) eqn:Hp;
    [discriminate|].
  destruct (question_only_mode cfg && _); [discriminate|].
  destruct (_ <? _)%float eqn:Hr; [discriminate|].
  intros E. injection E as <-. split; [reflexivity|].
  unfold calculate_enhanced_relevance_score.
  now rewrite Hp, score_before_penalty_sum.
Qed.

Lemma filtered_posts_carry_no_penalty_witness :
  is_promotional_content (title short_question) (selftext short_question)
  = false
  /\ 1%float
     = py_min (additive_sum (title short_question) (selftext short_question)
                 (keyword default_settings)) 1%float.
Proof.
  apply (filtered_posts_carry_no_penalty short_question default_settings);
    [reflexivity | vm_compute; reflexivity].
Defined.

(** ** Detectors and longer text *)

Lemma combined_text_extend (title content before after : string) :
  combined_text (before ++ title) (content ++ after)
  = lower before ++ combined_text title content ++ lower after.
Proof.
  unfold combined_text. rewrite <- !lower_app. f_equal.
  now rewrite !app_assoc_s.
Qed.

Lemma existsb_str_in_extend (xs : list string) (text pre post : string) :
  existsb (fun w => str_in w text) xs = true ->
  existsb (fun w => str_in w (pre ++ text ++ post)) xs = true.
Proof.
  rewrite !existsb_exists. intros [w [Hin H]]. exists w.
  split; [exact Hin | now apply str_in_extend].
Qed.

(** X22. Text put before the title or after the body changes no verdict
    to the negative: a genuine question stays a genuine question and a
    promotional post stays promotional. *)
Theorem verdicts_persist (title content before after : string) :
  (is_genuine_question title content = true ->
   is_genuine_question (before ++ title) (content ++ after) = true)
  /\ (is_promotional_content title content = true ->
      is_promotional_content (before ++ title) (content ++ after) = true).
Proof.
  split.
  - unfold is_genuine_question. rewrite combined_text_extend, !orb_true_iff.
    intros [[H | H] | H]; [left; left | left; right | right];
      now apply existsb_str_in_extend.
  - unfold is_promotional_content, promo_score.
    rewrite combined_text_extend, !Z.geb_le.
    pose proof (promo_score_of_extend (combined_text title content)
                  (lower before) (lower after)).
    lia.
Qed.

Lemma verdicts_persist_witness :
  is_genuine_question ("[Help] " ++ "Which editor") ("" ++ " thanks") = true
  /\ is_promotional_content ("NEW: " ++ "Huge sale") ("best deal" ++ " today")
     = true.
Proof.
  split.
  - apply (proj1 (verdicts_persist "Which editor" "" "[Help] " " thanks")).
    reflexivity.
  - apply (proj2 (verdicts_persist "Huge sale" "best deal" "NEW: " " today")).
    reflexivity.
Defined.

(** ** Comments by their number of words *)

Lemma split_lstrip (s : string) : split (lstrip s) = split s.
Proof.
  unfold split. induction s as [|c s IH]; [reflexivity|].
  cbn [lstrip]. destruct (is_space c) eqn:Hc; [|reflexivity].
  rewrite IH. cbn [split_from]. now rewrite Hc.
Qed.

Lemma split_from_rstrip_length (s cur : string) :
  List.length (split_from cur (rstrip s)) = List.length (split_from cur s).
Proof.
  revert cur. induction s as [|c s IH]; intros cur; [reflexivity|].
  destruct (rstrip_cons c s) as [[E0 [Es Hc]] | E].
  - rewrite E0. cbn [split_from]. rewrite Hc.
    apply flush_length; [tauto|]. now rewrite <- (IH ""), Es.
  - rewrite E. cbn [split_from]. destruct (is_space c).
    + apply flush_length; [tauto | apply IH].
    + apply IH.
Qed.

Lemma word_count_strip (s : string) : word_count (strip s) = word_count s.
Proof.
  unfold word_count, strip. rewrite <- (split_lstrip s). unfold split.
  now rewrite split_from_rstrip_length.
Qed.

Lemma split_from_length_bound (s cur : string) :
  (2 * List.length (split_from cur s)
   <= String.length s + 1 + (if String.eqb cur "" then 0 else 1))%nat.
Proof.
  revert cur. induction s as [|c s IH]; intros cur.
  - destruct cur; simpl; lia.
  - cbn [split_from String.length]. destruct (is_space c).
    + specialize (IH ""). simpl in IH. destruct cur; simpl; lia.
    + specialize (IH (String c cur)). simpl in IH.
      destruct (String.eqb cur ""); lia.
Qed.

Lemma word_count_bound (s : string) : 2 * word_count s <= len (strip s) + 1.
Proof.
  rewrite <- word_count_strip. unfold word_count, len, split.
  pose proof (split_from_length_bound (strip s) "") as H. simpl in H. lia.
Qed.

(** X23. The comment filter by number of words: a comment of fewer than
    5 words is never meaningful, a comment of 20 words or more always
    is, and one in between is meaningful exactly when its trimmed body
    has at least 15 characters and contains a meaningful indicator. *)
Theorem comment_by_word_count (comment_body : string) :
  (word_count comment_body < 5 -> is_meaningful_comment comment_body = false)
  /\ (20 <= word_count comment_body ->
      is_meaningful_comment comment_body = true)
  /\ (5 <= word_count comment_body < 20 ->
      is_meaningful_comment comment_body
      = (15 <=? len (strip comment_body))
        && existsb (fun indicator => str_in indicator (lower comment_body))
             meaningful_indicators).
Proof.
  assert (E : is_meaningful_comment comment_body
              = meaningful_by_size_and_content comment_body).
  { unfold is_meaningful_comment, meaningful_by_size_and_content.
    rewrite existsb_strip.
    destruct (String.eqb comment_body "") eqn:Eb.
    - apply String.eqb_eq in Eb. subst. reflexivity.
    - rewrite orb_false_l. destruct (len (strip comment_body) <? 15) eqn:El.
      + apply Z.ltb_lt in El.
        assert (E : (15 <=? len (strip comment_body)) = false)
          by (apply Z.leb_gt; lia).
        now rewrite E.
      + apply Z.ltb_ge in El. rewrite (low_quality_unreachable _ El).
        apply Z.leb_le in El. rewrite El, !Z.geb_leb. reflexivity. }
  rewrite E. unfold meaningful_by_size_and_content.
  pose proof (word_count_bound comment_body) as Hb.
  split; [|split].
  - intros H. assert (E5 : (5 <=? word_count comment_body) = false)
      by (apply Z.leb_gt; lia).
    now rewrite E5, andb_false_r.
  - intros H.
    assert (E15 : (15 <=? len (strip comment_body)) = true)
      by (apply Z.leb_le; lia).
    assert (E5 : (5 <=? word_count comment_body) = true)
      by (apply Z.leb_le; lia).
    assert (E20 : (20 <=? word_count comment_body) = true)
      by (apply Z.leb_le; lia).
    now rewrite E15, E5, E20, orb_true_r.
  - intros [H5 H20].
    assert (E5 : (5 <=? word_count comment_body) = true)
      by (apply Z.leb_le; lia).
    assert (E20 : (20 <=? word_count comment_body) = false)
      by (apply Z.leb_gt; lia).
    now rewrite E5, E20, andb_true_r, orb_false_r.
Qed.

Lemma comment_by_word_count_witness :
  is_meaningful_comment "me too, same problem" = false
  /\ is_meaningful_comment
       "a b c d e f g h i j k l m n o p q r s t" = true.
Proof.
  split.
  - apply (proj1 (comment_by_word_count "me too, same problem")).
    vm_compute. reflexivity.
  - apply (proj1 (proj2 (comment_by_word_count
                           "a b c d e f g h i j k l m n o p q r s t"))).
    vm_compute. discriminate.
Defined.
